(** * siyuan-ollama-proxy: a shallow embedding of [proxy/app.py]

    The proxy sits between OpenAI-style clients and an Ollama backend.  This
    development embeds the model normaliser and selector, the body rewriter,
    the availability cache with its provisioner, and the three route
    handlers, and proves the properties the specification states about them.

    Conventions.
    - A Python [str] is a [string]; a character is a code point below 256
      (the range Starlette decodes header values into).
    - A Python [bytes] is a [list byte].
    - A [dict] with string keys is a [gmap string _]; a [set] of strings is
      a [gset string].  A request keeps its header lines and query pairs as
      lists, a name or key possibly repeated; [dict(...)] of them is the
      single-valued mapping the framework reads.
    - [time.time()] and the cache timestamp are binary64 floats, modelled by
      [spec_float] with the operations of [SpecFloat] at precision 53.
    - A coroutine is a state-and-exception computation over the module's
      globals and the log of requests sent to the backend; one handler runs
      from start to end without interleaving. *)

From Stdlib Require Import ZArith String Ascii List Bool Lia.
From Stdlib Require Import Floats.SpecFloat.
From stdpp Require Import gmap strings list fin_maps.

Set Warnings "-register-all".
Local Open Scope string_scope.

(** ** Python string primitives *)

Module PyStr.

(** [str.isspace] on one character, for code points below 256:
    TAB..CR, FS..US, SPACE, NEL and NBSP. *)
Definition isspace (c : ascii) : bool :=
  let n := nat_of_ascii c in
  (((9 <=? n) && (n <=? 13)) || ((28 <=? n) && (n <=? 32))
   || (n =? 133) || (n =? 160))%nat.

(** [s.lstrip()] *)
Fixpoint lstrip (s : string) : string :=
  match s with
  | EmptyString => EmptyString
  | String c r => if isspace c then lstrip r else s
  end.

(** [s.rstrip()] *)
Fixpoint rstrip (s : string) : string :=
  match s with
  | EmptyString => EmptyString
  | String c r =>
      match rstrip r with
      | EmptyString => if isspace c then EmptyString else String c EmptyString
      | r' => String c r'
      end
  end.

(** [s.strip()] *)
Definition strip (s : string) : string := rstrip (lstrip s).

(** [s.startswith(p)] *)
Fixpoint startswith (p s : string) : bool :=
  match p, s with
  | EmptyString, _ => true
  | String _ _, EmptyString => false
  | String a p', String b s' => Ascii.eqb a b && startswith p' s'
  end.

(** [sub in s] *)
Fixpoint contains (sub s : string) : bool :=
  startswith sub s
  || match s with
     | EmptyString => false
     | String _ r => contains sub r
     end.

(** Drop the first [n] characters: [s[n:]]. *)
Fixpoint drop_chars (n : nat) (s : string) : string :=
  match n, s with
  | O, _ => s
  | S _, EmptyString => EmptyString
  | S n', String _ r => drop_chars n' r
  end.

(** The first occurrence of a non-empty [sep] in [s]: the text before it
    and the text after it. *)
Fixpoint partition (sep s : string) : option (string * string) :=
  if startswith sep s then Some (EmptyString, drop_chars (String.length sep) s)
  else match s with
       | EmptyString => None
       | String c r =>
           match partition sep r with
           | Some (a, b) => Some (String c a, b)
           | None => None
           end
       end.

(** [s.split(sep, 1)] for a non-empty [sep]. *)
Definition split1 (sep s : string) : list string :=
  match partition sep s with
  | Some (a, b) => [a; b]
  | None => [s]
  end.

(** [c.lower()] on one character, for code points below 256: the ASCII
    capitals and the Latin-1 capitals (all of 192..222 but the
    multiplication sign 215) move up by 32. *)
Definition lower_char (c : ascii) : ascii :=
  let n := nat_of_ascii c in
  if (((65 <=? n) && (n <=? 90))
      || ((192 <=? n) && (n <=? 222) && negb (n =? 215)))%nat
  then ascii_of_nat (n + 32) else c.

(** [s.lower()] *)
Fixpoint lower (s : string) : string :=
  match s with
  | EmptyString => EmptyString
  | String c r => String (lower_char c) (lower r)
  end.

(** Truth value of a string: [bool(s)]. *)
Definition truthy (s : string) : bool :=
  match s with EmptyString => false | _ => true end.

(** Every character of [s] is whitespace. *)
Fixpoint all_space (s : string) : bool :=
  match s with
  | EmptyString => true
  | String c r => isspace c && all_space r
  end.

End PyStr.

(** ** Model normaliser and selector *)

(** [_normalize_model(raw)].  For a [str] argument [raw or ""] is [raw]. *)
Definition _normalize_model (raw : string) : string :=
  let m := PyStr.strip raw in
  if negb (PyStr.truthy m) then ""
  else if PyStr.contains "/" m
       then PyStr.strip (hd "" (PyStr.split1 "/" m))
       else m.

(** ** JSON values

    What [json.loads] returns: [None], [bool], [int], [float], [str], [list]
    and [dict].  [JNull] is Python's [None]. *)
Inductive json : Type :=
  | JNull
  | JBool (b : bool)
  | JInt (n : Z)
  | JFloat (f : spec_float)
  | JStr (s : string)
  | JArr (l : list json)
  | JObj (d : gmap string json).

Module PyJson.

(** Truth value of a decoded value: [bool(v)]. *)
Definition truthy (v : json) : bool :=
  match v with
  | JNull => false
  | JBool b => b
  | JInt n => negb (n =? 0)%Z
  | JFloat (S754_zero _) => false
  | JFloat _ => true
  | JStr s => PyStr.truthy s
  | JArr l => match l with [] => false | _ => true end
  | JObj d => negb (bool_decide (d = ∅))
  end.

(** [v is None] *)
Definition is_none (v : json) : bool :=
  match v with JNull => true | _ => false end.

End PyJson.

(** [_apply_model(payload, model, force)].  The dictionary is updated in
    place and returned; the caller keeps no other reference to it. *)
Definition _apply_model (payload : json) (model : string) (force : bool) : json :=
  match payload with
  | JObj d =>
      if force then JObj (<["model" := JStr model]> d)
      else match d !! "model" with
           | Some _ => JObj d
           | None => JObj (<["model" := JStr model]> d)
           end
  | _ => payload
  end.

(** ** Requests, responses and the backend *)

Definition bytes : Type := list Byte.byte.

(** An inbound request: the header lines in the order received, names
    lower-cased, and the decoded query pairs in the order written.  A name
    or a key may occur more than once. *)
Record Request := mkRequest {
  method : string;
  raw_headers : list (string * string);
  query_items : list (string * string);
  body : bytes
}.

(** The value of the first pair with key [k]. *)
Fixpoint first_value (k : string) (l : list (string * string)) : option string :=
  match l with
  | [] => None
  | (k', v) :: r => if String.eqb k' k then Some v else first_value k r
  end.

(** The value of the last pair with key [k]. *)
Fixpoint last_value (k : string) (l : list (string * string)) : option string :=
  match l with
  | [] => None
  | (k', v) :: r =>
      match last_value k r with
      | Some v' => Some v'
      | None => if String.eqb k' k then Some v else None
      end
  end.

(** [request.headers] read as a [Mapping] ([get], [dict(...)]): a repeated
    name reads as its first line. *)
Definition headers (r : Request) : gmap string string :=
  list_to_map (raw_headers r).

(** [request.query_params] read as a [Mapping] ([get], [in], [dict(...)]):
    a repeated key reads as its last value. *)
Definition query_params (r : Request) : gmap string string :=
  list_to_map (reverse (query_items r)).

(** The keyword arguments of one [httpx] call.  [call_content = None] and
    [call_json = JNull] are the keyword left at [None]; [call_timeout = None]
    waits without limit. *)
Record HttpCall := mkCall {
  call_method : string;
  call_url : string;
  call_params : gmap string string;
  call_headers : gmap string string;
  call_content : option bytes;
  call_json : json;
  call_timeout : option Z
}.

(** A backend response: status, headers (as a mapping) and the body in the
    chunks the backend wrote.  [client.request] reads the body whole before
    it returns. *)
Record HttpResponse := mkResponse {
  status_code : Z;
  resp_headers : gmap string string;
  resp_chunks : list bytes
}.

(** [r.content], [await r.aread()] *)
Definition resp_content (r : HttpResponse) : bytes := concat (resp_chunks r).

(** [r.aiter_bytes()] on a response already read: the whole body in one
    piece, and no piece at all when the body is empty. *)
Definition aiter_bytes (r : HttpResponse) : list bytes :=
  match resp_content r with
  | [] => []
  | b => [b]
  end.

(** What sending a call yields: a response, or a transport failure. *)
Inductive Outcome : Type :=
  | Replied (r : HttpResponse)
  | Unreachable.

(** The body [httpx] puts on the wire for a call: [content] when given,
    else the serialised [json] when given, else nothing. *)
Inductive BodyForm : Type :=
  | RawBytes (b : bytes)
  | JsonValue (j : json).

Definition wire_body (c : HttpCall) : BodyForm :=
  match call_content c with
  | Some b => RawBytes b
  | None => if PyJson.is_none (call_json c) then RawBytes [] else JsonValue (call_json c)
  end.

(** What a handler hands back to the web framework. *)
Inductive ClientResponse : Type :=
  | StreamingResponse (chunks : list bytes) (status : Z) (hdrs : gmap string string)
  | Response (content : bytes) (status : Z) (hdrs : gmap string string).

(** ** Exceptions and the handler monad *)

Inductive exn : Type :=
  | TransportError
  | HTTPStatusError (status : Z)
  | JSONDecodeError
  | AttributeError
  | TypeError.

Inductive Result (A : Type) : Type :=
  | Ok (a : A)
  | Raise (e : exn).
Arguments Ok {A} a.
Arguments Raise {A} e.

(** The module globals, the number of clock readings taken, and the calls
    sent to the backend so far (oldest first). *)
Record World := mkWorld {
  _models_cache : gset string;
  _models_cache_ts : spec_float;
  clock_reads : nat;
  sent : list HttpCall
}.

Definition M (A : Type) : Type := World -> Result A * World.

#[global] Instance M_ret : MRet M := fun A a w => (Ok a, w).

#[global] Instance M_bind : MBind M := fun A B f m w =>
  match m w with
  | (Ok a, w') => f a w'
  | (Raise e, w') => (Raise e, w')
  end.

Definition raise {A} (e : exn) : M A := fun w => (Raise e, w).

Definition lift {A} (r : Result A) : M A := fun w => (r, w).

Definition get_cache : M (gset string) := fun w => (Ok (_models_cache w), w).

Definition get_ts : M spec_float := fun w => (Ok (_models_cache_ts w), w).

Definition set_cache (s : gset string) : M unit := fun w =>
  (Ok tt, mkWorld s (_models_cache_ts w) (clock_reads w) (sent w)).

Definition set_ts (t : spec_float) : M unit := fun w =>
  (Ok tt, mkWorld (_models_cache w) t (clock_reads w) (sent w)).

(** The world after one more clock reading. *)
Definition ticked (w : World) : World :=
  mkWorld (_models_cache w) (_models_cache_ts w) (S (clock_reads w)) (sent w).

(** The world after one more call to the backend. *)
Definition logged (c : HttpCall) (w : World) : World :=
  mkWorld (_models_cache w) (_models_cache_ts w) (clock_reads w) (sent w ++ [c]).

(** [r.is_success]: a 2xx status. *)
Definition is_success (r : HttpResponse) : bool :=
  ((200 <=? status_code r) && (status_code r <=? 299))%Z.

(** A call failed: the backend was not reached, or answered outside 2xx. *)
Definition failed (o : Outcome) : bool :=
  match o with
  | Replied r => negb (is_success r)
  | Unreachable => true
  end.

(** ** Floats against integers

    [f > n] for a float [f] and an [int] [n]: Python compares the two exact
    values.  A finite float [S754_finite s m e] is [(-1)^s * m * 2^e]. *)
Definition float_gt_int (f : spec_float) (n : Z) : bool :=
  match f with
  | S754_nan => false
  | S754_infinity s => negb s
  | S754_zero _ => (n <? 0)%Z
  | S754_finite s m e =>
      let v := cond_Zopp s (Z.pos m) in
      if (0 <=? e)%Z then (n <? v * 2 ^ e)%Z
      else (n * 2 ^ (- e) <? v)%Z
  end.

(** Binary64 subtraction. *)
Definition float_sub (x y : spec_float) : spec_float := SFsub 53 1024 x y.

(** The literal [0.0]. *)
Definition float_zero : spec_float := S754_zero false.

(** ** The application *)

Section App.

(** Module constants, read from the environment at start-up. *)
Variable UPSTREAM_BASE : string.
Variable DEFAULT_MODEL : string.
Variable AUTO_PULL : bool.
Variable MODELS_CACHE_TTL_SEC : Z.

(** The surroundings: the successive readings of [time.time()], the backend
    (its answer may depend on every call sent before), and [json.loads]
    ([None] when it raises). *)
Variable time_time : nat -> spec_float.
Variable upstream : list HttpCall -> HttpCall -> Outcome.
Variable json_loads : bytes -> option json.

(** [time.time()] *)
Definition read_clock : M spec_float := fun w =>
  (Ok (time_time (clock_reads w)), ticked w).

(** [await client.request(...)]: the call is logged, then answered. *)
Definition client_request (c : HttpCall) : M HttpResponse := fun w =>
  match upstream (sent w) c with
  | Replied r => (Ok r, logged c w)
  | Unreachable => (Raise TransportError, logged c w)
  end.

(** [r.raise_for_status()]: anything but 2xx raises. *)
Definition raise_for_status (r : HttpResponse) : M unit :=
  if is_success r then mret tt
  else raise (HTTPStatusError (status_code r)).

(** [r.json()] *)
Definition resp_json (r : HttpResponse) : M json :=
  match json_loads (resp_content r) with
  | Some v => mret v
  | None => raise JSONDecodeError
  end.

(** [_pick_model(request)] *)
Definition _pick_model (request : Request) : string :=
  let m_q := query_params request !! "model" in
  let m := match m_q with
           | Some q => if PyStr.truthy q then _normalize_model q else ""
           | None => ""
           end in
  if PyStr.truthy m then m else DEFAULT_MODEL.

(** [GET {UPSTREAM_BASE}/api/tags], thirty seconds allowed. *)
Definition tags_call : HttpCall :=
  mkCall "GET" (UPSTREAM_BASE ++ "/api/tags") ∅ ∅ None JNull (Some 30%Z).

(** [POST {UPSTREAM_BASE}/api/pull] with [{"model": model, "stream": False}],
    no time limit. *)
Definition pull_call (model : string) : HttpCall :=
  mkCall "POST" (UPSTREAM_BASE ++ "/api/pull") ∅ ∅ None
         (JObj (<["model" := JStr model]> (<["stream" := JBool false]> ∅)))
         None.

(** [data.get(key, dflt)]: only a [dict] has [get]. *)
Definition py_get (data : json) (key : string) (dflt : json) : Result json :=
  match data with
  | JObj d => Ok (default dflt (d !! key))
  | _ => Raise AttributeError
  end.

(** The items a [for] loop draws from a value: the elements of a list, the
    keys of a dict, the characters of a string; nothing else iterates. *)
Definition py_iter (v : json) : Result (list json) :=
  match v with
  | JArr l => Ok l
  | JObj d => Ok (JStr <$> (map_to_list d).*1)
  | JStr s => Ok ((fun c => JStr (String c EmptyString)) <$> list_ascii_of_string s)
  | _ => Raise TypeError
  end.

(** The loop of [_fetch_local_models] over the listed entries.  A truthy
    name that is a number or [True] is hashable and enters the Python set,
    where it never equals a [str]; the set of strings leaves it out.  A
    non-empty list or dict is unhashable. *)
Fixpoint collect_names (items : list json) (names : gset string)
  : Result (gset string) :=
  match items with
  | [] => Ok names
  | m :: rest =>
      match py_get m "name" JNull with
      | Raise e => Raise e
      | Ok name =>
          if PyJson.truthy name then
            match name with
            | JStr s => collect_names rest ({[ s ]} ∪ names)
            | JArr _ | JObj _ => Raise TypeError
            | _ => collect_names rest names
            end
          else collect_names rest names
      end
  end.

(** [_fetch_local_models(client)] *)
Definition _fetch_local_models : M (gset string) :=
  r ← client_request tags_call;
  raise_for_status r;;
  data ← resp_json r;
  models ← lift (py_get data "models" (JArr []));
  items ← lift (py_iter models);
  lift (collect_names items ∅).

(** The test of [_has_model]: [now - _models_cache_ts > MODELS_CACHE_TTL_SEC]. *)
Definition expired (now ts : spec_float) : bool :=
  float_gt_int (float_sub now ts) MODELS_CACHE_TTL_SEC.

(** [_has_model(client, model)] *)
Definition _has_model (model : string) : M bool :=
  now ← read_clock;
  ts ← get_ts;
  (if expired now ts
   then names ← _fetch_local_models;
        set_cache names;;
        set_ts now
   else mret tt);;
  cache ← get_cache;
  mret (bool_decide (model ∈ cache)).

(** [_pull_model(client, model)] *)
Definition _pull_model (model : string) : M unit :=
  r ← client_request (pull_call model);
  raise_for_status r;;
  set_ts float_zero.

(** [_ensure_model(model)] *)
Definition _ensure_model (model : string) : M unit :=
  if negb AUTO_PULL then mret tt
  else
    present ← _has_model model;
    if negb present then _pull_model model else mret tt.

(** [GET /v1/chat/completions]: the liveness probe. *)
Definition chat_completions_probe : json :=
  JObj (<["ok" := JBool true]>
       (<["note" := JStr "Use POST /v1/chat/completions. Proxy is alive."]>
       (<["default_model" := JStr DEFAULT_MODEL]>
       (<["auto_pull" := JBool AUTO_PULL]> ∅)))).

(** The list [models] falls back to: the default model alone. *)
Definition models_fallback : json :=
  JObj (<["object" := JStr "list"]>
       (<["data" :=
            JArr [JObj (<["id" := JStr DEFAULT_MODEL]>
                       (<["object" := JStr "model"]>
                       (<["owned_by" := JStr "ollama"]> ∅)))]]> ∅)).

(** [GET {UPSTREAM_BASE}/v1/models], thirty seconds allowed. *)
Definition models_call : HttpCall :=
  mkCall "GET" (UPSTREAM_BASE ++ "/v1/models") ∅ ∅ None JNull (Some 30%Z).

(** [GET /v1/models] *)
Definition models : M json :=
  r ← client_request models_call;
  if (status_code r =? 200)%Z then resp_json r
  else mret models_fallback.

(** Steps 3 and 4 of [proxy_v1], up to the keyword arguments of
    [client.request]: headers and query copied and pruned, and the body
    either kept raw or decoded and given its model.  [request.json()]
    raising is the [None] of [json_loads]; the handler catches it. *)
Definition outbound_call (path : string) (request : Request) (model : string)
  : HttpCall :=
  let upstream_url := UPSTREAM_BASE ++ "/v1/" ++ path in
  let headers' :=
    delete "host" (delete "transfer-encoding"
      (delete "content-length" (headers request))) in
  let params := delete "model" (query_params request) in
  let body_bytes := body request in
  let content_type := default "" (headers request !! "content-type") in
  let '(json_payload, body_bytes) :=
    if PyStr.contains "application/json" (PyStr.lower content_type)
       && match body_bytes with [] => false | _ => true end
    then match json_loads body_bytes with
         | Some v =>
             let force := bool_decide (is_Some (query_params request !! "model")) in
             (_apply_model v model force, [])
         | None => (JNull, body_bytes)
         end
    else (JNull, body_bytes) in
  mkCall (method request) upstream_url params headers'
         (if PyJson.is_none json_payload then Some body_bytes else None)
         json_payload None.

(** Step 5 of [proxy_v1]: an event stream is handed over as the pieces
    [aiter_bytes] yields, anything else as [aread()]; [content-encoding] is
    dropped. *)
Definition relay (r : HttpResponse) : ClientResponse :=
  let ct := default "" (resp_headers r !! "content-type") in
  let resp_headers' := delete "content-encoding" (resp_headers r) in
  if PyStr.contains "text/event-stream" (PyStr.lower ct)
  then StreamingResponse (aiter_bytes r) (status_code r) resp_headers'
  else Response (resp_content r) (status_code r) resp_headers'.

(** [proxy_v1(path, request)] *)
Definition proxy_v1 (path : string) (request : Request) : M ClientResponse :=
  let model := _pick_model request in
  _ensure_model model;;
  r ← client_request (outbound_call path request model);
  mret (relay r).

End App.

(** ** Reading the log *)

(** The calls a computation sent, given the log before and after. *)
Definition sent_since (w w' : World) : list HttpCall :=
  drop (length (sent w)) (sent w').

(** A call is a pull when it posts to the pull endpoint. *)
Definition is_pull (base : string) (c : HttpCall) : bool :=
  String.eqb (call_method c) "POST"
  && String.eqb (call_url c) (base ++ "/api/pull").

(** A call is a model listing when it gets the tags endpoint. *)
Definition is_tags (base : string) (c : HttpCall) : bool :=
  String.eqb (call_method c) "GET"
  && String.eqb (call_url c) (base ++ "/api/tags").

(** The number of pulls among some calls. *)
Definition count_pulls (base : string) (cs : list HttpCall) : nat :=
  length (filter (fun c => is_pull base c = true) cs).

(** The request says it carries JSON and has a body: the guard of step 4. *)
Definition claims_json (request : Request) : Prop :=
  PyStr.contains "application/json"
    (PyStr.lower (default "" (headers request !! "content-type"))) = true
  /\ body request <> [].

(** ** Start-up configuration

    The module constants as computed from the environment, a mapping from
    names to values.  [MODELS_CACHE_TTL_SEC] goes through [int(...)] and
    stays a parameter. *)

Module PyEnv.

(** [c in chars] *)
Fixpoint char_in (c : ascii) (chars : string) : bool :=
  match chars with
  | EmptyString => false
  | String d r => Ascii.eqb c d || char_in c r
  end.

(** [s.rstrip(chars)]: trailing characters drawn from [chars] go. *)
Fixpoint rstrip_chars (chars s : string) : string :=
  match s with
  | EmptyString => EmptyString
  | String c r =>
      match rstrip_chars chars r with
      | EmptyString =>
          if char_in c chars then EmptyString else String c EmptyString
      | r' => String c r'
      end
  end.

(** Every character of [s] is drawn from [chars]. *)
Fixpoint all_in (chars s : string) : bool :=
  match s with
  | EmptyString => true
  | String c r => char_in c chars && all_in chars r
  end.

(** [os.getenv(key, dflt)] *)
Definition getenv (env : gmap string string) (key dflt : string) : string :=
  default dflt (env !! key).

(** [UPSTREAM_BASE] *)
Definition upstream_base (env : gmap string string) : string :=
  rstrip_chars "/" (getenv env "UPSTREAM_BASE" "http://ollama:11434").

(** [DEFAULT_MODEL] *)
Definition default_model (env : gmap string string) : string :=
  getenv env "DEFAULT_MODEL" "qwen3:8b".

(** [AUTO_PULL] *)
Definition auto_pull (env : gmap string string) : bool :=
  let v := PyStr.lower (PyStr.strip (getenv env "AUTO_PULL" "0")) in
  bool_decide (v ∈ ["1"; "true"; "yes"; "on"]).

End PyEnv.

(** ** Reading a client response *)

(** The status the client sees. *)
Definition client_status (c : ClientResponse) : Z :=
  match c with
  | StreamingResponse _ st _ => st
  | Response _ st _ => st
  end.



(** The calls that are neither a listing nor a pull. *)
Definition other_calls (base : string) (cs : list HttpCall) : list HttpCall :=
  filter (fun c => is_tags base c = false /\ is_pull base c = false) cs.

(** An entry of the listing that the loop takes without raising: a dict
    whose [name] is missing, [None] or a string. *)
Definition plain_entry (e : gmap string json) : Prop :=
  e !! "name" = None \/ e !! "name" = Some JNull
  \/ exists s, e !! "name" = Some (JStr s).

(** ** Sample surroundings

    Concrete bodies, a decoder that knows them, backends and a clock, for
    running the handlers on examples. *)

Module Sample.

Definition dq : string := String (ascii_of_nat 34) "".

Definition text (s : string) : bytes := list_byte_of_string s.

(** [{"model":"a"}] *)
Definition model_a_text : string :=
  "{" ++ dq ++ "model" ++ dq ++ ":" ++ dq ++ "a" ++ dq ++ "}".

(** [{"models":[{"name":"qwen3:8b"}]}] *)
Definition tags_text : string :=
  "{" ++ dq ++ "models" ++ dq ++ ":[{" ++ dq ++ "name" ++ dq ++ ":"
      ++ dq ++ "qwen3:8b" ++ dq ++ "}]}".

(** [json.loads] on the few texts the examples use; it raises on the rest. *)
Definition loads (b : bytes) : option json :=
  let t := string_of_list_byte b in
  if String.eqb t model_a_text then Some (JObj (<["model" := JStr "a"]> ∅))
  else if String.eqb t "{}" then Some (JObj ∅)
  else if String.eqb t "null" then Some JNull
  else if String.eqb t tags_text
       then Some (JObj (<["models" :=
                           JArr [JObj (<["name" := JStr "qwen3:8b"]> ∅)]]> ∅))
  else None.

(** A backend that answers every call with one status and one body. *)
Definition backend (status : Z) (payload : string)
  : list HttpCall -> HttpCall -> Outcome :=
  fun _ _ => Replied (mkResponse status ∅ [text payload]).

(** A backend no call reaches. *)
Definition backend_down : list HttpCall -> HttpCall -> Outcome :=
  fun _ _ => Unreachable.

(** A backend that lists its models but refuses every other call. *)
Definition backend_no_pull (base : string)
  : list HttpCall -> HttpCall -> Outcome :=
  fun _ c =>
    if is_tags base c then Replied (mkResponse 200 ∅ [text tags_text])
    else Replied (mkResponse 500 ∅ []).

(** The clock stands at 1.8e9 seconds: [7549747200000000 * 2^-22]. *)
Definition clock : nat -> spec_float :=
  fun _ => S754_finite false 7549747200000000 (-22).

Definition base : string := "http://ollama:11434".

Definition json_headers : list (string * string) :=
  [("content-type", "application/json"); ("host", "proxy:8000");
   ("content-length", "13")].

(** [POST /v1/chat/completions?model=b] with body [{"model":"a"}]. *)
Definition post_with_query : Request :=
  mkRequest "POST" json_headers [("model", "b")] (text model_a_text).

(** The same request without a query. *)
Definition post_plain : Request :=
  mkRequest "POST" json_headers [] (text model_a_text).

(** A request whose body is the empty object. *)
Definition post_empty_object : Request :=
  mkRequest "POST" json_headers [] (text "{}").

(** A request whose body is the JSON literal [null]. *)
Definition post_null : Request :=
  mkRequest "POST" json_headers [("model", "b")] (text "null").

(** A request that claims JSON and carries none. *)
Definition post_garbage : Request :=
  mkRequest "POST" json_headers [("model", "b")] (text "{oops").

(** A request with a header and a query key written twice. *)
Definition get_repeated : Request :=
  mkRequest "GET"
    [("accept", "text/html"); ("x-trace", "1"); ("x-trace", "2")]
    [("tag", "a"); ("tag", "b")] [].

(** Globals as the module starts: an empty cache stamped [0.0]. *)
Definition start : World := mkWorld ∅ float_zero 0 [].

End Sample.

(** * Properties *)

(** ** Strings *)

Module PyStrFacts.
Import PyStr.

Lemma app_String c l s : String c l ++ s = String c (l ++ s).
Proof. reflexivity. Qed.

Lemma app_empty s : "" ++ s = s.
Proof. reflexivity. Qed.

Lemma lstrip_all_space s : all_space s = true -> lstrip s = "".
Proof.
  induction s as [|c r IH]; simpl; [done|].
  intros [Hc Hr]%andb_prop. rewrite Hc. auto.
Qed.

Lemma lstrip_decompose s :
  exists l, s = l ++ lstrip s /\ all_space l = true.
Proof.
  induction s as [|c r [l [E Hl]]]; simpl.
  - by exists "".
  - destruct (isspace c) eqn:Hc.
    + exists (String c l). simpl. rewrite Hc, Hl, app_String.
      split; [by f_equal|done].
    + by exists "".
Qed.

Lemma rstrip_decompose s :
  exists r, s = rstrip s ++ r /\ all_space r = true.
Proof.
  induction s as [|c t [r [E Hr]]]; simpl.
  - by exists "".
  - destruct (rstrip t) as [|d u] eqn:Ht.
    + rewrite app_empty in E. subst t. destruct (isspace c) eqn:Hc.
      * exists (String c r). simpl. by rewrite Hc, Hr.
      * by exists r.
    + exists r. split; [|done]. rewrite !app_String. f_equal. exact E.
Qed.

(** [strip] removes a run of whitespace at each end and nothing else. *)
Lemma strip_decompose s :
  exists l r, s = l ++ strip s ++ r /\ all_space l = true /\ all_space r = true.
Proof.
  destruct (lstrip_decompose s) as [l [El Hl]].
  destruct (rstrip_decompose (lstrip s)) as [r [Er Hr]].
  exists l, r. unfold strip. by rewrite <- Er.
Qed.

(** What [strip] leaves does not start with whitespace. *)
Lemma lstrip_head s c t : lstrip s = String c t -> isspace c = false.
Proof.
  induction s as [|d r IH]; simpl; [done|].
  destruct (isspace d) eqn:Hd; [auto|]. intros [= -> _]. done.
Qed.

Lemma rstrip_head s c t : rstrip s = String c t -> exists u, s = String c u.
Proof.
  destruct s as [|d r]; simpl; [done|].
  destruct (rstrip r); [destruct (isspace d)|]; intros [= <- _]; eauto.
Qed.

Lemma strip_head s c t : strip s = String c t -> isspace c = false.
Proof.
  unfold strip. intros H.
  destruct (rstrip_head _ _ _ H) as [u Hu]. by eapply lstrip_head.
Qed.

(** What [rstrip] leaves does not end with whitespace. *)
Lemma rstrip_last s t c : rstrip s = t ++ String c "" -> isspace c = false.
Proof.
  revert t. induction s as [|d r IH]; intros t; simpl.
  - by destruct t.
  - destruct (rstrip r) as [|e u] eqn:Hr.
    + destruct (isspace d) eqn:Hd; [by destruct t|].
      destruct t as [|x [|y t]]; rewrite ?app_String, ?app_empty;
        intros H; by simplify_eq.
    + destruct t as [|x t]; rewrite ?app_String, ?app_empty;
        intros H; simplify_eq. by eapply IH.
Qed.

Lemma strip_last s t c : strip s = t ++ String c "" -> isspace c = false.
Proof. apply rstrip_last. Qed.

Lemma strip_all_space s : all_space s = true -> strip s = "".
Proof. intros H. unfold strip. by rewrite lstrip_all_space. Qed.

Lemma startswith_char c s :
  startswith (String c "") s = true <-> exists r, s = String c r.
Proof.
  destruct s as [|d r]; simpl.
  - split; [done|]. by intros [? ?].
  - rewrite andb_true_r. split.
    + intros ->%Ascii.eqb_eq. eauto.
    + intros [? [= -> _]]. apply Ascii.eqb_refl.
Qed.

(** [partition] on a one-character separator cuts at its first occurrence. *)
Lemma partition_char c s a b :
  partition (String c "") s = Some (a, b) ->
  s = a ++ String c b /\ contains (String c "") a = false.
Proof.
  revert a. induction s as [|d r IH]; intros a.
  - simpl. done.
  - cbn [partition]. destruct (startswith (String c "") (String d r)) eqn:Hs.
    + apply startswith_char in Hs as [r' [= -> ->]].
      simpl. intros [= <- <-]. done.
    + destruct (partition (String c "") r) as [[a' b']|] eqn:Hp; [|done].
      intros [= <- <-]. destruct (IH a' eq_refl) as [-> Hn].
      split; [by rewrite app_String|].
      cbn [contains]. rewrite Hn, orb_false_r.
      simpl in Hs. rewrite andb_true_r in Hs. simpl. by rewrite andb_true_r.
Qed.

Lemma contains_char_partition c s :
  contains (String c "") s = true ->
  exists a b, partition (String c "") s = Some (a, b).
Proof.
  induction s as [|d r IH].
  - simpl. done.
  - cbn [contains partition].
    destruct (startswith (String c "") (String d r)) eqn:Hs; [eauto|].
    simpl. intros [a [b ->]]%IH. eauto.
Qed.

Lemma contains_truthy sub s :
  truthy sub = true -> contains sub s = true -> truthy s = true.
Proof. destruct sub, s; simpl; done. Qed.

End PyStrFacts.

(** ** The normaliser *)

(** C10. When the trimmed input contains a slash, the normaliser returns
    the text before the first slash, trimmed again; a blank input gives the
    empty string; and the value from the docstring,
    [deepseek-r1:latest/chat/completions], gives [deepseek-r1:latest]. *)
Theorem normalize_model_spec (raw : string) :
  (PyStr.contains "/" (PyStr.strip raw) = true ->
   exists pre post,
     PyStr.strip raw = pre ++ "/" ++ post
     /\ PyStr.contains "/" pre = false
     /\ _normalize_model raw = PyStr.strip pre)
  /\ (PyStr.all_space raw = true -> _normalize_model raw = "")
  /\ _normalize_model "deepseek-r1:latest/chat/completions"
     = "deepseek-r1:latest".
Proof.
  split; [|split].
  - intros Hc. unfold _normalize_model. cbv zeta. rewrite Hc.
    rewrite (PyStrFacts.contains_truthy "/" _ eq_refl Hc). cbn [negb].
    destruct (PyStrFacts.contains_char_partition _ _ Hc) as [a [b Hp]].
    destruct (PyStrFacts.partition_char _ _ _ _ Hp) as [E Hn].
    exists a, b. unfold PyStr.split1. rewrite Hp. by simpl.
  - intros Hs. unfold _normalize_model. cbv zeta.
    by rewrite PyStrFacts.strip_all_space.
  - reflexivity.
Qed.

Lemma normalize_model_spec_witness :
  (exists pre post,
     PyStr.strip "  qwen3:8b /v1 " = pre ++ "/" ++ post
     /\ PyStr.contains "/" pre = false
     /\ _normalize_model "  qwen3:8b /v1 " = PyStr.strip pre)
  /\ _normalize_model "   " = "".
Proof.
  split.
  - apply (proj1 (normalize_model_spec "  qwen3:8b /v1 ")). reflexivity.
  - apply (proj1 (proj2 (normalize_model_spec "   "))). reflexivity.
Defined.

(** ** The selector *)

Lemma pick_model_no_query (DEFAULT_MODEL : string) (request : Request) :
  query_params request !! "model" = None ->
  _pick_model DEFAULT_MODEL request = DEFAULT_MODEL.
Proof. unfold _pick_model. by intros ->. Qed.

(** C9. A [model] query parameter whose normalised value is not empty
    selects that value, whatever the default; without the parameter, or
    when it normalises to nothing, the default is selected. *)
Theorem pick_model_spec (DEFAULT_MODEL : string) (request : Request) :
  (forall q, query_params request !! "model" = Some q ->
             _normalize_model q <> "" ->
             _pick_model DEFAULT_MODEL request = _normalize_model q)
  /\ (query_params request !! "model" = None ->
      _pick_model DEFAULT_MODEL request = DEFAULT_MODEL)
  /\ (forall q, query_params request !! "model" = Some q ->
                _normalize_model q = "" ->
                _pick_model DEFAULT_MODEL request = DEFAULT_MODEL).
Proof.
  unfold _pick_model. repeat split.
  - intros q -> Hq. cbv zeta.
    destruct q as [|c q]; [done|]. cbn [PyStr.truthy].
    by destruct (_normalize_model (String c q)).
  - apply pick_model_no_query.
  - intros q -> Hq. cbv zeta.
    destruct q as [|c q]; [done|]. cbn [PyStr.truthy]. by rewrite Hq.
Qed.

Lemma pick_model_spec_witness :
  _pick_model "qwen3:8b" Sample.post_with_query = "b"
  /\ _pick_model "qwen3:8b" Sample.post_plain = "qwen3:8b".
Proof.
  split.
  - apply (proj1 (pick_model_spec "qwen3:8b" Sample.post_with_query) "b");
      [reflexivity | discriminate].
  - apply (proj1 (proj2 (pick_model_spec "qwen3:8b" Sample.post_plain))).
    reflexivity.
Defined.

(** ** The request rewriter *)

Section Rewriter.

Variable UPSTREAM_BASE : string.
Variable DEFAULT_MODEL : string.
Variable json_loads : bytes -> option json.

Lemma outbound_call_guard_true path request model :
  claims_json request ->
  outbound_call UPSTREAM_BASE json_loads path request model =
  let '(json_payload, body_bytes) :=
    match json_loads (body request) with
    | Some v =>
        (_apply_model v model
           (bool_decide (is_Some (query_params request !! "model"))), [])
    | None => (JNull, body request)
    end in
  mkCall (method request) (UPSTREAM_BASE ++ "/v1/" ++ path)
         (delete "model" (query_params request))
         (delete "host" (delete "transfer-encoding"
            (delete "content-length" (headers request))))
         (if PyJson.is_none json_payload then Some body_bytes else None)
         json_payload None.
Proof.
  intros [Hct Hb]. unfold outbound_call. rewrite Hct.
  destruct (body request); [done|]. reflexivity.
Qed.

(** A decoded object is what goes on the wire, with its model set. *)
Lemma outbound_object path request model d :
  claims_json request ->
  json_loads (body request) = Some (JObj d) ->
  wire_body (outbound_call UPSTREAM_BASE json_loads path request model) =
  JsonValue (_apply_model (JObj d) model
               (bool_decide (is_Some (query_params request !! "model")))).
Proof.
  intros Hg Hl. rewrite outbound_call_guard_true by done. rewrite Hl.
  unfold wire_body. simpl.
  destruct (bool_decide _); [done|]. by destruct (d !! "model").
Qed.

(** A body that does not decode goes on the wire as it came. *)
Lemma outbound_undecodable path request model :
  claims_json request ->
  json_loads (body request) = None ->
  let c := outbound_call UPSTREAM_BASE json_loads path request model in
  call_content c = Some (body request) /\ call_json c = JNull.
Proof.
  intros Hg Hl. cbv zeta. rewrite outbound_call_guard_true by done.
  by rewrite Hl.
Qed.

(** A request that does not claim JSON, or has no body, goes out raw. *)
Lemma outbound_not_json path request model :
  ~ claims_json request ->
  let c := outbound_call UPSTREAM_BASE json_loads path request model in
  call_content c = Some (body request) /\ call_json c = JNull.
Proof.
  intros Hg. cbv zeta. unfold outbound_call.
  destruct (PyStr.contains _ _) eqn:Hct; [|done].
  destruct (body request) eqn:Hb; [done|].
  exfalso. apply Hg. split; [done|]. by rewrite Hb.
Qed.

End Rewriter.

(** C1. For a request that claims JSON and whose body decodes to
    [{"model": a}]: with a [model] query parameter the outbound body is
    [{"model": b}], [b] being the selected model; without one it stays
    [{"model": a}].  A decoded object with no [model] key, on a request
    without the query parameter, gets the default model. *)
Theorem rewriter_sets_model
  (UPSTREAM_BASE DEFAULT_MODEL : string) (json_loads : bytes -> option json)
  (path : string) (request : Request) :
  claims_json request ->
  let sent_body :=
    wire_body (outbound_call UPSTREAM_BASE json_loads path request
                 (_pick_model DEFAULT_MODEL request)) in
  (forall a b,
     json_loads (body request) = Some (JObj (<["model" := JStr a]> ∅)) ->
     is_Some (query_params request !! "model") ->
     _pick_model DEFAULT_MODEL request = b ->
     sent_body = JsonValue (JObj (<["model" := JStr b]> ∅)))
  /\ (forall a,
     json_loads (body request) = Some (JObj (<["model" := JStr a]> ∅)) ->
     query_params request !! "model" = None ->
     sent_body = JsonValue (JObj (<["model" := JStr a]> ∅)))
  /\ (forall d,
     json_loads (body request) = Some (JObj d) ->
     d !! "model" = None ->
     query_params request !! "model" = None ->
     sent_body = JsonValue (JObj (<["model" := JStr DEFAULT_MODEL]> d))).
Proof.
  intros Hg. cbv zeta. repeat split.
  - intros a b Hl Hq <-. rewrite (outbound_object _ _ _ _ _ _ Hg Hl).
    rewrite bool_decide_eq_true_2 by done. simpl.
    by rewrite insert_insert_eq.
  - intros a Hl Hq. rewrite (outbound_object _ _ _ _ _ _ Hg Hl).
    rewrite bool_decide_eq_false_2 by (rewrite Hq; by intros [? ?]).
    simpl. by rewrite lookup_insert_eq.
  - intros d Hl Hd Hq. rewrite (outbound_object _ _ _ _ _ _ Hg Hl).
    rewrite bool_decide_eq_false_2 by (rewrite Hq; by intros [? ?]).
    simpl. rewrite Hd. by rewrite pick_model_no_query.
Qed.

Lemma sample_claims_json_with_query : claims_json Sample.post_with_query.
Proof. split; [reflexivity | discriminate]. Qed.

Lemma sample_claims_json_plain : claims_json Sample.post_plain.
Proof. split; [reflexivity | discriminate]. Qed.

Lemma sample_claims_json_empty_object : claims_json Sample.post_empty_object.
Proof. split; [reflexivity | discriminate]. Qed.

Lemma sample_claims_json_null : claims_json Sample.post_null.
Proof. split; [reflexivity | discriminate]. Qed.

Lemma sample_claims_json_garbage : claims_json Sample.post_garbage.
Proof. split; [reflexivity | discriminate]. Qed.

Lemma rewriter_sets_model_witness :
  wire_body (outbound_call Sample.base Sample.loads "chat/completions"
               Sample.post_with_query
               (_pick_model "qwen3:8b" Sample.post_with_query))
  = JsonValue (JObj (<["model" := JStr "b"]> ∅))
  /\ wire_body (outbound_call Sample.base Sample.loads "chat/completions"
                  Sample.post_plain (_pick_model "qwen3:8b" Sample.post_plain))
     = JsonValue (JObj (<["model" := JStr "a"]> ∅))
  /\ wire_body (outbound_call Sample.base Sample.loads "chat/completions"
                  Sample.post_empty_object
                  (_pick_model "qwen3:8b" Sample.post_empty_object))
     = JsonValue (JObj (<["model" := JStr "qwen3:8b"]> ∅)).
Proof.
  split; [|split].
  - apply (proj1 (rewriter_sets_model Sample.base "qwen3:8b" Sample.loads
                    "chat/completions" Sample.post_with_query
                    sample_claims_json_with_query) "a" "b");
      [reflexivity | by eexists | reflexivity].
  - apply (proj1 (proj2 (rewriter_sets_model Sample.base "qwen3:8b" Sample.loads
                    "chat/completions" Sample.post_plain
                    sample_claims_json_plain)) "a"); reflexivity.
  - apply (proj2 (proj2 (rewriter_sets_model Sample.base "qwen3:8b" Sample.loads
                    "chat/completions" Sample.post_empty_object
                    sample_claims_json_empty_object)) ∅); reflexivity.
Defined.

(** What the [Mapping] views read from the lines and pairs received. *)
Lemma headers_lookup (request : Request) (k : string) :
  headers request !! k = first_value k (raw_headers request).
Proof.
  unfold headers. induction (raw_headers request) as [|[k' v] l IH]; [done|].
  rewrite list_to_map_cons, lookup_insert. cbn [first_value].
  destruct (String.eqb_spec k' k) as [->|Hne]; case_decide;
      first [done | congruence].
Qed.

Lemma query_params_lookup (request : Request) (k : string) :
  query_params request !! k = last_value k (query_items request).
Proof.
  unfold query_params.
  induction (query_items request) as [|[k' v] l IH]; [done|].
  rewrite reverse_cons, list_to_map_app, lookup_union, IH.
  cbn [last_value]. destruct (last_value k l) as [v'|].
  - by destruct (list_to_map [(k', v)] !! k).
  - cbn [list_to_map foldr uncurry]. rewrite lookup_insert, lookup_empty.
    destruct (String.eqb_spec k' k) as [->|Hne]; case_decide;
      first [done | congruence].
Qed.

(** C7, as the code has it.  The outbound headers hold, for every name
    but [content-length], [transfer-encoding] and [host], the value of the
    first inbound line of that name, and nothing for those three; the
    outbound query holds, for every key but [model], the last inbound
    value of that key, and nothing for [model].  A name or key received
    once keeps its value; of one received several times a single value is
    forwarded. *)
Theorem rewriter_prunes_headers_and_query
  (UPSTREAM_BASE : string) (json_loads : bytes -> option json)
  (path : string) (request : Request) (model : string) :
  let c := outbound_call UPSTREAM_BASE json_loads path request model in
  (forall k,
     call_headers c !! k =
     if bool_decide (k ∈ ["content-length"; "transfer-encoding"; "host"])
     then None else first_value k (raw_headers request))
  /\ (forall k,
     call_params c !! k =
     if bool_decide (k = "model") then None
     else last_value k (query_items request)).
Proof.
  cbv zeta.
  assert (call_headers (outbound_call UPSTREAM_BASE json_loads path request model)
          = delete "host" (delete "transfer-encoding"
              (delete "content-length" (headers request)))
          /\ call_params (outbound_call UPSTREAM_BASE json_loads path request model)
             = delete "model" (query_params request)) as [-> ->].
  { unfold outbound_call.
    destruct (_ && _); [destruct (json_loads _)|]; done. }
  split; intros k.
  - rewrite !lookup_delete, headers_lookup. case_bool_decide as Hk.
    + rewrite !elem_of_cons in Hk.
      destruct Hk as [->|[->|[->|Hk]]]; repeat case_decide; try done.
      by apply elem_of_nil in Hk.
    + rewrite !elem_of_cons in Hk. repeat case_decide; try done;
        exfalso; apply Hk; auto.
  - rewrite lookup_delete, query_params_lookup.
    case_bool_decide; case_decide; congruence.
Qed.

(** C7 as stated fails.  A request carrying [x-trace: 1] and [x-trace: 2],
    and the query [tag=a&tag=b], is forwarded with [x-trace: 1] and
    [tag=b] alone: the second header line and the first query value, which
    are none of the removed keys, do not reach the backend. *)
Lemma repeated_values_not_forwarded :
  let c := outbound_call Sample.base Sample.loads "models"
             Sample.get_repeated "qwen3:8b" in
  (("x-trace", "2") ∈ raw_headers Sample.get_repeated)
  /\ call_headers c !! "x-trace" = Some "1"
  /\ (("x-trace", "2") ∉ map_to_list (call_headers c))
  /\ (("tag", "a") ∈ query_items Sample.get_repeated)
  /\ call_params c !! "tag" = Some "b"
  /\ (("tag", "a") ∉ map_to_list (call_params c)).
Proof.
  cbv zeta.
  assert (call_headers (outbound_call Sample.base Sample.loads "models"
                          Sample.get_repeated "qwen3:8b") !! "x-trace"
          = Some "1") as Hh by reflexivity.
  assert (call_params (outbound_call Sample.base Sample.loads "models"
                         Sample.get_repeated "qwen3:8b") !! "tag"
          = Some "b") as Hq by reflexivity.
  split; [|split; [exact Hh|split; [|split; [|split; [exact Hq|]]]]].
  - cbn. rewrite !elem_of_cons. auto.
  - rewrite elem_of_map_to_list, Hh. discriminate.
  - cbn. rewrite !elem_of_cons. auto.
  - rewrite elem_of_map_to_list, Hq. discriminate.
Qed.

(** C2, at the input where it fails.  A request that claims JSON and whose
    body decodes to [None] (the text [null]) is sent with
    [content = b""] and [json = None]: an empty body goes on the wire,
    which is neither the bytes received nor a decoded value. *)
Theorem null_body_goes_out_empty
  (UPSTREAM_BASE : string) (json_loads : bytes -> option json)
  (path : string) (request : Request) (model : string) :
  claims_json request ->
  json_loads (body request) = Some JNull ->
  let c := outbound_call UPSTREAM_BASE json_loads path request model in
  call_content c = Some []
  /\ call_json c = JNull
  /\ wire_body c = RawBytes []
  /\ wire_body c <> RawBytes (body request)
  /\ forall j, wire_body c <> JsonValue j.
Proof.
  intros Hg Hl. cbv zeta. rewrite outbound_call_guard_true by done.
  rewrite Hl. unfold wire_body. simpl. repeat split; try done.
  intros [= E]. destruct Hg as [_ Hb]. by apply Hb.
Qed.

Lemma null_body_goes_out_empty_witness :
  let c := outbound_call Sample.base Sample.loads "chat/completions"
             Sample.post_null "b" in
  body Sample.post_null = Sample.text "null"
  /\ call_content c = Some []
  /\ call_json c = JNull
  /\ wire_body c = RawBytes [].
Proof.
  cbv zeta. split; [reflexivity|].
  pose proof (null_body_goes_out_empty Sample.base Sample.loads
                "chat/completions" Sample.post_null "b"
                sample_claims_json_null eq_refl) as H.
  cbv zeta in H. destruct H as (H1 & H2 & H3 & _). auto.
Defined.

(** The half of C2 that holds: a body that fails to decode is forwarded as
    it came, and the model is not applied to it. *)
Lemma undecodable_body_goes_out_raw
  (UPSTREAM_BASE : string) (json_loads : bytes -> option json)
  (path : string) (request : Request) (model : string) :
  claims_json request ->
  json_loads (body request) = None ->
  wire_body (outbound_call UPSTREAM_BASE json_loads path request model)
  = RawBytes (body request).
Proof.
  intros Hg Hl.
  destruct (outbound_undecodable UPSTREAM_BASE json_loads path request model
              Hg Hl) as [Hc _].
  unfold wire_body. by rewrite Hc.
Qed.

(** ** The availability cache and the provisioner *)

Ltac run_monad :=
  unfold mbind, M_bind, mret, M_ret, raise, lift, get_ts, get_cache,
    set_ts, set_cache, read_clock.

Lemma float_sub_zero_gt (now : spec_float) (n : Z) :
  float_gt_int (float_sub now float_zero) n = float_gt_int now n.
Proof. by destruct now as [[]|[]| |]. Qed.

Lemma is_pull_tags base : is_pull base (tags_call base) = false.
Proof. reflexivity. Qed.

Lemma is_pull_pull base model : is_pull base (pull_call base model) = true.
Proof.
  unfold is_pull, pull_call. simpl. by rewrite String.eqb_refl.
Qed.

Lemma sent_since_app w w' l : sent w' = (sent w ++ l)%list -> sent_since w w' = l.
Proof. unfold sent_since. intros ->. by rewrite drop_app_length. Qed.

Section CacheFacts.

Variable UPSTREAM_BASE : string.
Variable MODELS_CACHE_TTL_SEC : Z.
Variable time_time : nat -> spec_float.
Variable upstream : list HttpCall -> HttpCall -> Outcome.
Variable json_loads : bytes -> option json.

Local Abbreviation fetch := (_fetch_local_models UPSTREAM_BASE upstream json_loads).
Local Abbreviation has_model :=
  (_has_model UPSTREAM_BASE MODELS_CACHE_TTL_SEC time_time upstream json_loads).
Local Abbreviation pull_model := (_pull_model UPSTREAM_BASE upstream).
Local Abbreviation ensure_model auto :=
  (_ensure_model UPSTREAM_BASE auto MODELS_CACHE_TTL_SEC time_time upstream
     json_loads).

(** A listing sends one call and touches nothing else, however it ends. *)
Lemma fetch_world w :
  snd (fetch w) = logged (tags_call UPSTREAM_BASE) w.
Proof.
  unfold _fetch_local_models, client_request, raise_for_status, resp_json.
  run_monad.
  destruct (upstream _ _) as [r|]; [|done].
  destruct (is_success r); [|done].
  destruct (json_loads _) as [data|]; [|done].
  destruct (py_get data _ _) as [ms|]; [|done].
  destruct (py_iter ms) as [items|]; [|done].
  by destruct (collect_names _ _).
Qed.

(** Its result depends on the world through the log alone. *)
Lemma fetch_result w1 w2 :
  sent w1 = sent w2 -> fst (fetch w1) = fst (fetch w2).
Proof.
  intros E.
  unfold _fetch_local_models, client_request, raise_for_status, resp_json.
  run_monad. rewrite E.
  destruct (upstream _ _) as [r|]; [|done].
  destruct (is_success r); [|done].
  destruct (json_loads _) as [data|]; [|done].
  destruct (py_get data _ _) as [ms|]; [|done].
  destruct (py_iter ms) as [items|]; [|done].
  by destruct (collect_names _ _).
Qed.

Lemma fetch_run w :
  fetch w = (fst (fetch (ticked w)), logged (tags_call UPSTREAM_BASE) w)
  /\ fetch (ticked w)
     = (fst (fetch w), logged (tags_call UPSTREAM_BASE) (ticked w)).
Proof.
  split.
  - rewrite (surjective_pairing (fetch w)), fetch_world. f_equal.
    by apply fetch_result.
  - rewrite (surjective_pairing (fetch (ticked w))), fetch_world. f_equal.
    by apply fetch_result.
Qed.

(** The three ways [_has_model] runs. *)
Lemma has_model_fresh model w :
  expired MODELS_CACHE_TTL_SEC (time_time (clock_reads w)) (_models_cache_ts w)
  = false ->
  has_model model w = (Ok (bool_decide (model ∈ _models_cache w)), ticked w).
Proof.
  intros H. unfold _has_model. run_monad. simpl. by rewrite H.
Qed.

Lemma has_model_refresh_fails model w e :
  expired MODELS_CACHE_TTL_SEC (time_time (clock_reads w)) (_models_cache_ts w)
  = true ->
  fst (fetch w) = Raise e ->
  has_model model w = (Raise e, logged (tags_call UPSTREAM_BASE) (ticked w)).
Proof.
  intros H Hf. unfold _has_model. run_monad. simpl. rewrite H.
  rewrite (proj2 (fetch_run w)), Hf. done.
Qed.

Lemma has_model_refresh_ok model w names :
  expired MODELS_CACHE_TTL_SEC (time_time (clock_reads w)) (_models_cache_ts w)
  = true ->
  fst (fetch w) = Ok names ->
  has_model model w =
  (Ok (bool_decide (model ∈ names)),
   mkWorld names (time_time (clock_reads w)) (S (clock_reads w))
           (sent w ++ [tags_call UPSTREAM_BASE])%list).
Proof.
  intros H Hf. unfold _has_model. run_monad. simpl. rewrite H.
  rewrite (proj2 (fetch_run w)), Hf. done.
Qed.

(** Whatever it does, [_has_model] sends no call or one listing. *)
Lemma has_model_sent model w :
  sent (snd (has_model model w)) = sent w
  \/ sent (snd (has_model model w)) = (sent w ++ [tags_call UPSTREAM_BASE])%list.
Proof.
  destruct (expired MODELS_CACHE_TTL_SEC (time_time (clock_reads w))
              (_models_cache_ts w)) eqn:H.
  - right. destruct (fst (fetch w)) as [names|e] eqn:Hf.
    + by rewrite (has_model_refresh_ok _ _ _ H Hf).
    + by rewrite (has_model_refresh_fails _ _ _ H Hf).
  - left. by rewrite (has_model_fresh _ _ H).
Qed.

Lemma has_model_no_pull model w :
  count_pulls UPSTREAM_BASE (sent_since w (snd (has_model model w))) = 0.
Proof.
  destruct (has_model_sent model w) as [E|E].
  - rewrite (sent_since_app w _ []); [done|]. by rewrite app_nil_r.
  - by rewrite (sent_since_app w _ _ E).
Qed.

(** The two ways [_pull_model] runs. *)
Lemma pull_model_fails model w :
  failed (upstream (sent w) (pull_call UPSTREAM_BASE model)) = true ->
  exists e,
    pull_model model w = (Raise e, logged (pull_call UPSTREAM_BASE model) w).
Proof.
  unfold _pull_model, client_request, raise_for_status. run_monad.
  destruct (upstream _ _) as [r|]; simpl.
  - intros ->%negb_true_iff. eauto.
  - eauto.
Qed.

Lemma pull_model_succeeds model w r :
  upstream (sent w) (pull_call UPSTREAM_BASE model) = Replied r ->
  is_success r = true ->
  pull_model model w =
  (Ok tt, mkWorld (_models_cache w) float_zero (clock_reads w)
                  (sent w ++ [pull_call UPSTREAM_BASE model])%list).
Proof.
  intros Hu Hs. unfold _pull_model, client_request, raise_for_status.
  run_monad. by rewrite Hu, Hs.
Qed.

Lemma pull_model_sent model w :
  sent (snd (pull_model model w)) = (sent w ++ [pull_call UPSTREAM_BASE model])%list.
Proof.
  unfold _pull_model, client_request, raise_for_status. run_monad.
  destruct (upstream _ _) as [r|]; [|done]. by destruct (is_success r).
Qed.

Lemma ensure_model_absent model w w1 :
  has_model model w = (Ok false, w1) ->
  ensure_model true model w = pull_model model w1.
Proof. intros H. unfold _ensure_model. run_monad. simpl. by rewrite H. Qed.

Lemma ensure_model_present model w w1 :
  has_model model w = (Ok true, w1) ->
  ensure_model true model w = (Ok tt, w1).
Proof. intros H. unfold _ensure_model. run_monad. simpl. by rewrite H. Qed.

(** A stamp of [0.0] is expired for every clock reading above the
    lifetime: the check then sends the listing. *)
Lemma stamp_zero_refreshes (model : string) (w : World) :
  _models_cache_ts w = float_zero ->
  float_gt_int (time_time (clock_reads w)) MODELS_CACHE_TTL_SEC = true ->
  sent_since w (snd (has_model model w)) = [tags_call UPSTREAM_BASE].
Proof.
  intros Hts Hgt.
  assert (expired MODELS_CACHE_TTL_SEC (time_time (clock_reads w))
            (_models_cache_ts w) = true) as H.
  { unfold expired. by rewrite Hts, float_sub_zero_gt. }
  apply sent_since_app.
  destruct (fst (fetch w)) as [names|e'] eqn:Hf'.
  - by rewrite (has_model_refresh_ok model w names H Hf').
  - by rewrite (has_model_refresh_fails model w e' H Hf').
Qed.

(** C3, as the code has it.  With auto-pull off, [_ensure_model] sends
    nothing to the backend (it changes nothing at all).  With auto-pull on
    and the model reported absent by the cache, exactly one pull is sent,
    and when the backend accepts it the cache stamp is reset to [0.0] with
    the cached set kept, so that the next check sends the listing whenever
    its clock reading exceeds the lifetime.  With auto-pull on and the
    model reported present, no pull is sent. *)
Theorem ensure_model_spec (model : string) (w : World) :
  ensure_model false model w = (Ok tt, w)
  /\ (forall w1,
        has_model model w = (Ok false, w1) ->
        let w2 := snd (ensure_model true model w) in
        sent w2 = (sent w1 ++ [pull_call UPSTREAM_BASE model])%list
        /\ count_pulls UPSTREAM_BASE (sent_since w w2) = 1
        /\ (forall r,
              upstream (sent w1) (pull_call UPSTREAM_BASE model) = Replied r ->
              is_success r = true ->
              fst (ensure_model true model w) = Ok tt
              /\ _models_cache_ts w2 = float_zero
              /\ _models_cache w2 = _models_cache w1
              /\ (forall model',
                    float_gt_int (time_time (clock_reads w2))
                      MODELS_CACHE_TTL_SEC = true ->
                    sent_since w2 (snd (has_model model' w2))
                    = [tags_call UPSTREAM_BASE])))
  /\ (forall w1,
        has_model model w = (Ok true, w1) ->
        ensure_model true model w = (Ok tt, w1)
        /\ count_pulls UPSTREAM_BASE (sent_since w w1) = 0).
Proof.
  split; [done|split].
  - intros w1 H. cbv zeta. rewrite (ensure_model_absent _ _ _ H).
    rewrite pull_model_sent. split; [done|split].
    + pose proof (has_model_no_pull model w) as Hn. rewrite H in Hn.
      simpl in Hn. unfold count_pulls in *.
      destruct (has_model_sent model w) as [E|E]; rewrite H in E; simpl in E.
      * rewrite (sent_since_app w _ [pull_call UPSTREAM_BASE model]).
        -- rewrite filter_cons_True by apply is_pull_pull. done.
        -- by rewrite pull_model_sent, E.
      * rewrite (sent_since_app w _
                   [tags_call UPSTREAM_BASE; pull_call UPSTREAM_BASE model]).
        -- rewrite filter_cons_False
             by (rewrite is_pull_tags; discriminate).
           rewrite filter_cons_True by apply is_pull_pull. done.
        -- rewrite pull_model_sent, E. by rewrite <- app_assoc.
    + intros r Hu Hs. rewrite (pull_model_succeeds _ _ _ Hu Hs).
      cbn [fst snd]. repeat split.
      intros model' Hgt. by apply stamp_zero_refreshes.
  - intros w1 H. split; [by apply ensure_model_present|].
    pose proof (has_model_no_pull model w) as Hn. by rewrite H in Hn.
Qed.

(** C4. When the model is reported absent and the pull fails (the backend
    is not reached, or answers outside 2xx), [_ensure_model] raises, and the
    cached set and the stamp are those in place when the pull was sent. *)
Theorem failed_pull_keeps_cache (model : string) (w w1 : World) :
  has_model model w = (Ok false, w1) ->
  failed (upstream (sent w1) (pull_call UPSTREAM_BASE model)) = true ->
  exists e w2,
    ensure_model true model w = (Raise e, w2)
    /\ _models_cache w2 = _models_cache w1
    /\ _models_cache_ts w2 = _models_cache_ts w1.
Proof.
  intros H Hf. rewrite (ensure_model_absent _ _ _ H).
  destruct (pull_model_fails model w1 Hf) as [e ->].
  exists e. eexists. by repeat split.
Qed.

(** C5. When the stamp has expired and the listing, sent from this log,
    raises [e], [_has_model] raises [e] and leaves the cached set and the
    stamp as they were; the next call, its clock reading again past that
    same stamp, sends the listing once more. *)
Theorem failed_refresh_keeps_cache (model : string) (w : World) (e : exn) :
  expired MODELS_CACHE_TTL_SEC (time_time (clock_reads w)) (_models_cache_ts w)
  = true ->
  fst (fetch w) = Raise e ->
  let w' := snd (has_model model w) in
  fst (has_model model w) = Raise e
  /\ _models_cache w' = _models_cache w
  /\ _models_cache_ts w' = _models_cache_ts w
  /\ forall model',
       expired MODELS_CACHE_TTL_SEC (time_time (clock_reads w'))
               (_models_cache_ts w) = true ->
       sent_since w' (snd (has_model model' w')) = [tags_call UPSTREAM_BASE].
Proof.
  intros H Hf. cbv zeta. rewrite (has_model_refresh_fails _ _ _ H Hf).
  cbn [fst snd]. repeat split. intros model' H'.
  apply sent_since_app.
  set (w' := logged _ (ticked w)) in *.
  destruct (fst (fetch w')) as [names|e'] eqn:Hf'.
  - by rewrite (has_model_refresh_ok model' w' names H' Hf').
  - by rewrite (has_model_refresh_fails model' w' e' H' Hf').
Qed.

(** C6, as the code has it.  After a pull that succeeded (the stamp reset
    to [0.0]), the next [_has_model] sends a listing whenever its clock
    reading exceeds the configured lifetime. *)
Theorem invalidated_cache_refreshes (model model' : string) (w w1 : World) :
  pull_model model w = (Ok tt, w1) ->
  float_gt_int (time_time (clock_reads w1)) MODELS_CACHE_TTL_SEC = true ->
  _models_cache_ts w1 = float_zero
  /\ sent_since w1 (snd (has_model model' w1)) = [tags_call UPSTREAM_BASE].
Proof.
  intros Hp Hgt.
  assert (_models_cache_ts w1 = float_zero) as Hts.
  { revert Hp. unfold _pull_model, client_request, raise_for_status.
    run_monad. destruct (upstream _ _) as [r|]; [|done].
    destruct (is_success r); [|done]. by intros [= <-]. }
  split; [done|].
  assert (expired MODELS_CACHE_TTL_SEC (time_time (clock_reads w1))
            (_models_cache_ts w1) = true) as H.
  { unfold expired. by rewrite Hts, float_sub_zero_gt. }
  apply sent_since_app.
  destruct (fst (fetch w1)) as [names|e'] eqn:Hf'.
  - by rewrite (has_model_refresh_ok model' w1 names H Hf').
  - by rewrite (has_model_refresh_fails model' w1 e' H Hf').
Qed.

End CacheFacts.

Lemma ensure_model_spec_witness :
  let run auto model :=
    _ensure_model Sample.base auto 10 Sample.clock
      (Sample.backend 200 Sample.tags_text) Sample.loads model Sample.start in
  run false "llama3" = (Ok tt, Sample.start)
  /\ count_pulls Sample.base (sent_since Sample.start (snd (run true "llama3"))) = 1
  /\ fst (run true "llama3") = Ok tt
  /\ _models_cache_ts (snd (run true "llama3")) = float_zero
  /\ sent_since (snd (run true "llama3"))
       (snd (_has_model Sample.base 10 Sample.clock
               (Sample.backend 200 Sample.tags_text) Sample.loads
               "llama3" (snd (run true "llama3"))))
     = [tags_call Sample.base]
  /\ fst (run true "qwen3:8b") = Ok tt
  /\ count_pulls Sample.base (sent_since Sample.start (snd (run true "qwen3:8b"))) = 0.
Proof.
  cbv zeta.
  set (has model :=
         _has_model Sample.base 10 Sample.clock
           (Sample.backend 200 Sample.tags_text) Sample.loads model Sample.start).
  assert (has "llama3" = (Ok false, snd (has "llama3"))) as Ha.
  { rewrite (surjective_pairing (has "llama3")) at 1. f_equal. }
  assert (has "qwen3:8b" = (Ok true, snd (has "qwen3:8b"))) as Hp.
  { rewrite (surjective_pairing (has "qwen3:8b")) at 1. f_equal. }
  destruct (ensure_model_spec Sample.base 10 Sample.clock
              (Sample.backend 200 Sample.tags_text) Sample.loads
              "llama3" Sample.start) as (H0 & H1 & _).
  destruct (ensure_model_spec Sample.base 10 Sample.clock
              (Sample.backend 200 Sample.tags_text) Sample.loads
              "qwen3:8b" Sample.start) as (_ & _ & H2).
  specialize (H1 _ Ha). cbv zeta in H1. destruct H1 as (_ & Hc & Hs).
  destruct (Hs _ eq_refl eq_refl) as (Hok & Hts & _ & Hnext).
  destruct (H2 _ Hp) as (Hq & Hn).
  rewrite Hq. specialize (Hnext "llama3" eq_refl). auto 10.
Defined.

(** C3 as stated fails.  With a lifetime of ten thousand million seconds
    and the clock at 1.8e9, [_ensure_model] finds the model absent, sends
    its one pull, is answered 200 and resets the stamp to [0.0]; the next
    check still sends no listing and reports the pulled model absent. *)
Lemma huge_ttl_ensure_then_no_refresh :
  let ttl := 10000000000%Z in
  let ensured := _ensure_model Sample.base true ttl Sample.clock
                   (Sample.backend 200 Sample.tags_text) Sample.loads
                   "qwen3:8b" Sample.start in
  let next := _has_model Sample.base ttl Sample.clock
                (Sample.backend 200 Sample.tags_text) Sample.loads
                "qwen3:8b" (snd ensured) in
  fst ensured = Ok tt
  /\ count_pulls Sample.base (sent_since Sample.start (snd ensured)) = 1
  /\ _models_cache_ts (snd ensured) = float_zero
  /\ sent_since (snd ensured) (snd next) = []
  /\ fst next = Ok false.
Proof. cbv zeta. repeat split. Qed.

Lemma failed_pull_keeps_cache_witness :
  let has := _has_model Sample.base 10 Sample.clock
               (Sample.backend_no_pull Sample.base) Sample.loads
               "llama3" Sample.start in
  fst has = Ok false
  /\ exists e w2,
       _ensure_model Sample.base true 10 Sample.clock
         (Sample.backend_no_pull Sample.base) Sample.loads "llama3" Sample.start
       = (Raise e, w2)
       /\ _models_cache w2 = _models_cache (snd has)
       /\ _models_cache_ts w2 = _models_cache_ts (snd has).
Proof.
  cbv zeta. split; [reflexivity|].
  apply (failed_pull_keeps_cache Sample.base 10 Sample.clock
           (Sample.backend_no_pull Sample.base) Sample.loads
           "llama3" Sample.start).
  - rewrite (surjective_pairing (_has_model _ _ _ _ _ _ _)) at 1. f_equal.
  - reflexivity.
Defined.

Lemma failed_refresh_keeps_cache_witness :
  let has := _has_model Sample.base 10 Sample.clock
               (Sample.backend 500 "") Sample.loads "qwen3:8b" Sample.start in
  fst has = Raise (HTTPStatusError 500)
  /\ _models_cache (snd has) = ∅
  /\ _models_cache_ts (snd has) = float_zero.
Proof.
  cbv zeta.
  pose proof (failed_refresh_keeps_cache Sample.base 10 Sample.clock
                (Sample.backend 500 "") Sample.loads "qwen3:8b" Sample.start
                (HTTPStatusError 500) eq_refl eq_refl) as H.
  cbv zeta in H. destruct H as (H1 & H2 & H3 & _). auto.
Defined.

Lemma invalidated_cache_refreshes_witness :
  let w1 := snd (_pull_model Sample.base (Sample.backend 200 "{}")
                   "llama3" Sample.start) in
  _models_cache_ts w1 = float_zero
  /\ sent_since w1
       (snd (_has_model Sample.base 10 Sample.clock (Sample.backend 200 "{}")
               Sample.loads "llama3" w1))
     = [tags_call Sample.base].
Proof.
  cbv zeta.
  apply (invalidated_cache_refreshes Sample.base 10 Sample.clock
           (Sample.backend 200 "{}") Sample.loads "llama3" "llama3"
           Sample.start).
  - rewrite (surjective_pairing (_pull_model _ _ _ _)) at 1. f_equal.
  - reflexivity.
Defined.

(** C6 as stated fails.  With a lifetime of ten thousand million seconds
    and the clock at 1.8e9, the stamp reset by a successful pull does not
    make the next [_has_model] send a listing: it answers from the stale
    set. *)
Lemma huge_ttl_no_refresh_after_pull :
  let ttl := 10000000000%Z in
  let pulled := _pull_model Sample.base (Sample.backend 200 "{}")
                  "llama3" Sample.start in
  let next := _has_model Sample.base ttl Sample.clock
                (Sample.backend 200 Sample.tags_text) Sample.loads
                "qwen3:8b" (snd pulled) in
  fst pulled = Ok tt
  /\ _models_cache_ts (snd pulled) = float_zero
  /\ sent_since (snd pulled) (snd next) = []
  /\ fst next = Ok false.
Proof. cbv zeta. repeat split. Qed.

(** ** The route handlers *)

(** C8. When the backend answers [GET /v1/models] with a status other than
    200, the handler returns the one-entry list holding the default model;
    when it answers 200, the handler returns the decoded body as it is. *)
Theorem models_listing_spec
  (UPSTREAM_BASE DEFAULT_MODEL : string)
  (upstream : list HttpCall -> HttpCall -> Outcome)
  (json_loads : bytes -> option json) (w : World) (r : HttpResponse) :
  upstream (sent w) (models_call UPSTREAM_BASE) = Replied r ->
  (status_code r <> 200%Z ->
   fst (models UPSTREAM_BASE DEFAULT_MODEL upstream json_loads w) =
   Ok (JObj (<["object" := JStr "list"]>
            (<["data" :=
                 JArr [JObj (<["id" := JStr DEFAULT_MODEL]>
                            (<["object" := JStr "model"]>
                            (<["owned_by" := JStr "ollama"]> ∅)))]]> ∅))))
  /\ (status_code r = 200%Z ->
      forall v, json_loads (resp_content r) = Some v ->
      fst (models UPSTREAM_BASE DEFAULT_MODEL upstream json_loads w) = Ok v).
Proof.
  intros Hu. unfold models, client_request, resp_json. run_monad.
  rewrite Hu. split.
  - intros Hs. apply Z.eqb_neq in Hs. by rewrite Hs.
  - intros Hs v Hv. apply Z.eqb_eq in Hs. by rewrite Hs, Hv.
Qed.

Lemma models_listing_spec_witness :
  fst (models Sample.base "qwen3:8b" (Sample.backend 404 "") Sample.loads
         Sample.start)
  = Ok (JObj (<["object" := JStr "list"]>
             (<["data" :=
                  JArr [JObj (<["id" := JStr "qwen3:8b"]>
                             (<["object" := JStr "model"]>
                             (<["owned_by" := JStr "ollama"]> ∅)))]]> ∅)))
  /\ fst (models Sample.base "qwen3:8b" (Sample.backend 200 Sample.tags_text)
            Sample.loads Sample.start)
     = Ok (JObj (<["models" :=
                     JArr [JObj (<["name" := JStr "qwen3:8b"]> ∅)]]> ∅)).
Proof.
  split.
  - apply (proj1 (models_listing_spec Sample.base "qwen3:8b"
                    (Sample.backend 404 "") Sample.loads Sample.start
                    _ eq_refl)).
    discriminate.
  - apply (proj2 (models_listing_spec Sample.base "qwen3:8b"
                    (Sample.backend 200 Sample.tags_text) Sample.loads
                    Sample.start _ eq_refl)); reflexivity.
Defined.

Section ProxyFacts.

Variable UPSTREAM_BASE : string.
Variable DEFAULT_MODEL : string.
Variable AUTO_PULL : bool.
Variable MODELS_CACHE_TTL_SEC : Z.
Variable time_time : nat -> spec_float.
Variable upstream : list HttpCall -> HttpCall -> Outcome.
Variable json_loads : bytes -> option json.

Local Abbreviation ensure_model :=
  (_ensure_model UPSTREAM_BASE AUTO_PULL MODELS_CACHE_TTL_SEC time_time
     upstream json_loads).
Local Abbreviation proxy :=
  (proxy_v1 UPSTREAM_BASE DEFAULT_MODEL AUTO_PULL MODELS_CACHE_TTL_SEC
     time_time upstream json_loads).
Local Abbreviation outbound :=
  (outbound_call UPSTREAM_BASE json_loads).

(** Once the model is ensured, [proxy_v1] sends the rewritten request, that
    call and no other. *)
Lemma proxy_v1_forwards path request w w1 :
  ensure_model (_pick_model DEFAULT_MODEL request) w = (Ok tt, w1) ->
  sent (snd (proxy path request w))
  = (sent w1 ++ [outbound path request (_pick_model DEFAULT_MODEL request)])%list.
Proof.
  intros H. unfold proxy_v1, client_request. run_monad. rewrite H.
  by destruct (upstream _ _).
Qed.

(** Its answer is the backend's, relayed. *)
Lemma proxy_v1_relays path request w w1 r :
  ensure_model (_pick_model DEFAULT_MODEL request) w = (Ok tt, w1) ->
  upstream (sent w1)
    (outbound path request (_pick_model DEFAULT_MODEL request)) = Replied r ->
  fst (proxy path request w) = Ok (relay r).
Proof.
  intros H Hu. unfold proxy_v1, client_request. run_monad.
  by rewrite H, Hu.
Qed.

(** A failed provisioning fails the request before anything is forwarded. *)
Lemma proxy_v1_ensure_fails path request w w1 e :
  ensure_model (_pick_model DEFAULT_MODEL request) w = (Raise e, w1) ->
  proxy path request w = (Raise e, w1).
Proof. intros H. unfold proxy_v1. run_monad. by rewrite H. Qed.

End ProxyFacts.

(** With auto-pull off the rewritten request is the only call
    [proxy_v1] sends. *)
Lemma proxy_v1_sends_only_outbound
  (UPSTREAM_BASE DEFAULT_MODEL : string) (MODELS_CACHE_TTL_SEC : Z)
  (time_time : nat -> spec_float)
  (upstream : list HttpCall -> HttpCall -> Outcome)
  (json_loads : bytes -> option json) path request w :
  sent_since w
    (snd (proxy_v1 UPSTREAM_BASE DEFAULT_MODEL false MODELS_CACHE_TTL_SEC
            time_time upstream json_loads path request w))
  = [outbound_call UPSTREAM_BASE json_loads path request
       (_pick_model DEFAULT_MODEL request)].
Proof.
  apply sent_since_app.
  by apply (proxy_v1_forwards UPSTREAM_BASE DEFAULT_MODEL false
              MODELS_CACHE_TTL_SEC time_time upstream json_loads
              path request w w).
Qed.

(** ** Worked examples *)

Example normalize_docstring_path :
  _normalize_model "deepseek-r1:latest/chat/completions" = "deepseek-r1:latest".
Proof. reflexivity. Qed.

Example normalize_padded :
  _normalize_model "  qwen3:8b /v1 " = "qwen3:8b".
Proof. reflexivity. Qed.

Example normalize_leading_slash : _normalize_model " /v1/chat" = "".
Proof. reflexivity. Qed.

Example strip_keeps_inner_space : PyStr.strip "  a b  " = "a b".
Proof. reflexivity. Qed.

Example garbage_body_forwarded_raw :
  wire_body (outbound_call Sample.base Sample.loads "chat/completions"
               Sample.post_garbage "b")
  = RawBytes (Sample.text "{oops").
Proof. reflexivity. Qed.

Example proxy_streams_event_stream :
  relay (mkResponse 200
           (<["content-type" := "Text/Event-Stream; charset=utf-8"]>
            (<["content-encoding" := "gzip"]> ∅))
           [Sample.text "a"; Sample.text "b"; Sample.text "c"])
  = StreamingResponse [Sample.text "abc"] 200
      (<["content-type" := "Text/Event-Stream; charset=utf-8"]> ∅).
Proof. reflexivity. Qed.

Example unreachable_backend_fails_ensure :
  fst (_ensure_model Sample.base true 10 Sample.clock Sample.backend_down
         Sample.loads "llama3" Sample.start)
  = Raise TransportError.
Proof. reflexivity. Qed.

Example first_check_fills_cache :
  let w := snd (_has_model Sample.base 10 Sample.clock
                  (Sample.backend 200 Sample.tags_text) Sample.loads
                  "qwen3:8b" Sample.start) in
  _models_cache w = {[ "qwen3:8b" ]}
  /\ _models_cache_ts w = Sample.clock 0
  /\ sent w = [tags_call Sample.base].
Proof. cbv zeta. repeat split. Qed.

(** * Further properties *)

(** ** Strings, again *)

Module PyStrMore.
Import PyStr PyStrFacts.

Lemma contains_char_app c a b :
  contains (String c "") (a ++ b)
  = contains (String c "") a || contains (String c "") b.
Proof.
  induction a as [|d a IH].
  - rewrite app_empty. simpl. by destruct b.
  - rewrite app_String. cbn [contains]. rewrite IH.
    cbn [startswith]. rewrite !andb_true_r. by rewrite orb_assoc.
Qed.

Lemma contains_char_strip c s :
  contains (String c "") s = false -> contains (String c "") (strip s) = false.
Proof.
  destruct (strip_decompose s) as (l & r & E & _ & _).
  rewrite E at 1. rewrite !contains_char_app.
  intros H. apply orb_false_elim in H as [_ H].
  by apply orb_false_elim in H as [H _].
Qed.

Lemma rstrip_idem s : rstrip (rstrip s) = rstrip s.
Proof.
  induction s as [|c r IH]; [done|]. cbn [rstrip].
  destruct (rstrip r) as [|e u] eqn:Hr.
  - destruct (isspace c) eqn:Hc; [done|]. simpl. by rewrite Hc.
  - cbn [rstrip]. cbn [rstrip] in IH. by rewrite IH.
Qed.

Lemma lstrip_fixed c s : isspace c = false -> lstrip (String c s) = String c s.
Proof. intros H. simpl. by rewrite H. Qed.

Lemma strip_idem s : strip (strip s) = strip s.
Proof.
  unfold strip at 1. destruct (strip s) as [|c u] eqn:E; [done|].
  rewrite (lstrip_fixed c u) by (by eapply strip_head).
  rewrite <- E. unfold strip. apply rstrip_idem.
Qed.

End PyStrMore.

(** A value with no slash and no blank at either end is its own normal
    form. *)
Lemma normalize_model_fixed (m : string) :
  PyStr.contains "/" m = false -> PyStr.strip m = m -> _normalize_model m = m.
Proof.
  intros Hc Hs. unfold _normalize_model. cbv zeta. rewrite Hs, Hc.
  by destruct m.
Qed.

Lemma normalize_model_clean_aux (raw : string) :
  PyStr.contains "/" (_normalize_model raw) = false
  /\ PyStr.strip (_normalize_model raw) = _normalize_model raw.
Proof.
  unfold _normalize_model. cbv zeta.
  destruct (PyStr.truthy (PyStr.strip raw)) eqn:Ht; cbn [negb]; [|done].
  destruct (PyStr.contains "/" (PyStr.strip raw)) eqn:Hc.
  - destruct (PyStrFacts.contains_char_partition _ _ Hc) as [a [b Hp]].
    destruct (PyStrFacts.partition_char _ _ _ _ Hp) as [_ Hn].
    unfold PyStr.split1. rewrite Hp. cbn [hd]. split.
    + by apply PyStrMore.contains_char_strip.
    + apply PyStrMore.strip_idem.
  - split; [done|]. apply PyStrMore.strip_idem.
Qed.

(** X1. Whatever the input, the normalised model holds no slash and has no
    whitespace at either end. *)
Theorem normalize_model_clean (raw : string) :
  PyStr.contains "/" (_normalize_model raw) = false
  /\ PyStr.strip (_normalize_model raw) = _normalize_model raw.
Proof. apply normalize_model_clean_aux. Qed.

(** X2. Normalising twice is normalising once. *)
Theorem normalize_model_idempotent (raw : string) :
  _normalize_model (_normalize_model raw) = _normalize_model raw.
Proof.
  destruct (normalize_model_clean_aux raw) as [Hc Hs].
  by apply normalize_model_fixed.
Qed.

(** X3. The selected model is the default, or else a non-empty value with
    no slash and no whitespace at either end; with a non-empty default the
    selected model is never empty. *)
Theorem pick_model_shape (DEFAULT_MODEL : string) (request : Request) :
  let m := _pick_model DEFAULT_MODEL request in
  (m = DEFAULT_MODEL
   \/ (m <> "" /\ PyStr.contains "/" m = false /\ PyStr.strip m = m))
  /\ (DEFAULT_MODEL <> "" -> m <> "").
Proof.
  cbv zeta. unfold _pick_model. cbv zeta.
  destruct (query_params request !! "model") as [q|]; [|by split; [left|]].
  destruct (PyStr.truthy q); [|by split; [left|]].
  destruct (normalize_model_clean_aux q) as [Hc Hs].
  destruct (_normalize_model q) as [|c n] eqn:E; [by split; [left|]|].
  cbn [PyStr.truthy]. split; [right|]; done.
Qed.

Lemma pick_model_shape_witness :
  _pick_model "qwen3:8b" Sample.post_with_query <> "".
Proof.
  apply (proj2 (pick_model_shape "qwen3:8b" Sample.post_with_query)).
  discriminate.
Defined.

(** ** The body rewriter, again *)

(** X4. [_apply_model] returns anything but a dict as it is.  On a dict it
    leaves every key other than [model] alone and leaves [model] present:
    set to the given model when forced or when the key was missing, and
    kept, whatever its value, otherwise. *)
Theorem apply_model_frame (payload : json) (model : string) (force : bool) :
  ((forall d, payload <> JObj d) -> _apply_model payload model force = payload)
  /\ (forall d, payload = JObj d ->
      exists d',
        _apply_model payload model force = JObj d'
        /\ (forall k, k <> "model" -> d' !! k = d !! k)
        /\ (force = true -> d' !! "model" = Some (JStr model))
        /\ (force = false -> d !! "model" = None ->
            d' !! "model" = Some (JStr model))
        /\ (force = false -> forall v, d !! "model" = Some v ->
            d' !! "model" = Some v)).
Proof.
  split.
  - intros H. destruct payload; try done. by destruct (H d).
  - intros d ->. cbn [_apply_model]. destruct force.
    + exists (<["model" := JStr model]> d). repeat split; try done.
      * intros k Hk. rewrite lookup_insert_ne by congruence. done.
      * intros _. apply lookup_insert_eq.
    + destruct (d !! "model") as [v|] eqn:Hd.
      * exists d. repeat split; try done.
        by intros _ v0 [= <-].
      * exists (<["model" := JStr model]> d). repeat split; try done.
        -- intros k Hk. rewrite lookup_insert_ne by congruence. done.
        -- intros _ _. apply lookup_insert_eq.
Qed.

Lemma apply_model_frame_witness :
  _apply_model (JArr [JInt 1]) "b" true = JArr [JInt 1]
  /\ exists d',
       _apply_model (JObj (<["model" := JNull]> (<["stream" := JBool true]> ∅)))
         "b" false = JObj d'
       /\ d' !! "stream" = Some (JBool true)
       /\ d' !! "model" = Some JNull.
Proof.
  split.
  - apply (proj1 (apply_model_frame (JArr [JInt 1]) "b" true)). done.
  - destruct (proj2 (apply_model_frame
                       (JObj (<["model" := JNull]> (<["stream" := JBool true]> ∅)))
                       "b" false) _ eq_refl)
      as (d' & E & Hk & _ & _ & Hv).
    exists d'. split; [exact E|]. split.
    + rewrite Hk by done. reflexivity.
    + by apply Hv.
Defined.

(** X5. How two applications compose: the same application twice is one
    application; filling a default after any application changes nothing;
    forcing after any application is forcing alone. *)
Theorem apply_model_compose
  (payload : json) (m m' : string) (force : bool) :
  _apply_model (_apply_model payload m force) m force
  = _apply_model payload m force
  /\ _apply_model (_apply_model payload m force) m' false
     = _apply_model payload m force
  /\ _apply_model (_apply_model payload m force) m' true
     = _apply_model payload m' true.
Proof.
  destruct payload as [| | | | | |d]; try done.
  cbn [_apply_model]. destruct force.
  - cbn [_apply_model]. rewrite !lookup_insert_eq, !insert_insert_eq. done.
  - destruct (d !! "model") as [v|] eqn:Hd; cbn [_apply_model].
    + rewrite Hd. done.
    + rewrite !lookup_insert_eq, !insert_insert_eq. done.
Qed.

(** X6. A request that does not announce JSON, or has an empty body, is
    forwarded with its bytes untouched and no JSON value, whatever the
    query, the selected model and the decoder. *)
Theorem non_json_request_goes_out_raw
  (UPSTREAM_BASE : string) (json_loads : bytes -> option json)
  (path : string) (request : Request) (model : string) :
  ~ claims_json request ->
  let c := outbound_call UPSTREAM_BASE json_loads path request model in
  call_content c = Some (body request)
  /\ call_json c = JNull
  /\ wire_body c = RawBytes (body request).
Proof.
  intros H. cbv zeta.
  destruct (outbound_not_json UPSTREAM_BASE json_loads path request model H)
    as [Hc Hj].
  repeat split; try done. unfold wire_body. by rewrite Hc.
Qed.

Lemma non_json_request_goes_out_raw_witness :
  let request :=
    mkRequest "POST" [("content-type", "text/plain")]
      [("model", "b")] (Sample.text Sample.model_a_text) in
  wire_body (outbound_call Sample.base Sample.loads "completions" request "b")
  = RawBytes (Sample.text Sample.model_a_text).
Proof.
  cbv zeta.
  refine (proj2 (proj2 (non_json_request_goes_out_raw Sample.base Sample.loads
                          "completions" _ "b" _))).
  intros [H _]. discriminate H.
Defined.

(** X7. A body that decodes to something other than a dict or [None] (a
    list, a string, a number, a boolean) is forwarded as that decoded
    value: no model is written into it, query override or not, and the raw
    bytes are not sent. *)
Theorem non_object_json_goes_out_unchanged
  (UPSTREAM_BASE : string) (json_loads : bytes -> option json)
  (path : string) (request : Request) (model : string) (v : json) :
  claims_json request ->
  json_loads (body request) = Some v ->
  (forall d, v <> JObj d) ->
  v <> JNull ->
  let c := outbound_call UPSTREAM_BASE json_loads path request model in
  call_content c = None /\ call_json c = v /\ wire_body c = JsonValue v.
Proof.
  intros Hg Hl Hd Hn. cbv zeta.
  rewrite (outbound_call_guard_true _ _ _ _ _ Hg), Hl.
  unfold wire_body.
  destruct v; try done. by destruct (Hd d).
Qed.

Lemma non_object_json_goes_out_unchanged_witness :
  wire_body (outbound_call Sample.base (fun _ => Some (JArr [JStr "hi"]))
               "embeddings" Sample.post_with_query "b")
  = JsonValue (JArr [JStr "hi"]).
Proof.
  refine (proj2 (proj2 (non_object_json_goes_out_unchanged Sample.base _
                          "embeddings" Sample.post_with_query "b" _
                          sample_claims_json_with_query eq_refl _ _))); done.
Defined.

(** ** The listing, again *)

Lemma collect_names_plain (entries : list (gmap string json)) (acc : gset string) :
  Forall plain_entry entries ->
  exists names,
    collect_names (JObj <$> entries) acc = Ok names
    /\ forall s, s ∈ names <->
         s ∈ acc
         \/ (s <> "" /\ exists e, e ∈ entries /\ e !! "name" = Some (JStr s)).
Proof.
  intros H. revert acc. induction H as [|e es He _ IH]; intros acc.
  - exists acc. split; [done|]. intros s. split; [auto|].
    intros [?|(_ & e & He & _)]; [done|]. by apply elem_of_nil in He.
  - cbn [fmap list_fmap collect_names py_get].
    assert (forall names : gset string,
              (forall s : string, s ∈ names <->
                 s ∈ acc \/ (s <> "" /\ exists e', e' ∈ es
                                        /\ e' !! "name" = Some (JStr s))) ->
              PyJson.truthy (default JNull (e !! "name")) = false ->
              forall s : string, s ∈ names <->
                 s ∈ acc \/ (s <> "" /\ exists e', e' ∈ e :: es
                                        /\ e' !! "name" = Some (JStr s)))
      as Hskip.
    { intros names Hn Hf s. rewrite Hn. split.
      - intros [?|(Hs & e' & He' & Hl)]; [by left|right].
        split; [done|]. exists e'. split; [by right|done].
      - intros [?|(Hs & e' & He' & Hl)]; [by left|].
        apply elem_of_cons in He' as [->|He'].
        + rewrite Hl in Hf. simpl in Hf. by destruct s.
        + right. split; [done|]. by exists e'. }
    destruct He as [Hn|[Hn|[s0 Hn]]]; rewrite Hn;
      cbn [default from_option id PyJson.truthy].
    + destruct (IH acc) as (names & -> & Hnames).
      exists names. split; [done|]. apply Hskip; [done|]. by rewrite Hn.
    + destruct (IH acc) as (names & -> & Hnames).
      exists names. split; [done|]. apply Hskip; [done|]. by rewrite Hn.
    + destruct s0 as [|c s0]; cbn [PyStr.truthy].
      * destruct (IH acc) as (names & -> & Hnames).
        exists names. split; [done|]. apply Hskip; [done|]. by rewrite Hn.
      * destruct (IH ({[String c s0]} ∪ acc)) as (names & -> & Hnames).
        exists names. split; [done|]. intros s. rewrite Hnames.
        rewrite elem_of_union, elem_of_singleton. split.
        -- intros [[->|?]|(Hs & e' & He' & Hl)].
           ++ right. split; [done|]. exists e. split; [by left|done].
           ++ by left.
           ++ right. split; [done|]. exists e'. split; [by right|done].
        -- intros [?|(Hs & e' & He' & Hl)]; [by left; right|].
           apply elem_of_cons in He' as [->|He'].
           ++ left. left. congruence.
           ++ right. split; [done|]. by exists e'.
Qed.

(** X8. When the backend answers the listing with a 2xx status and a body
    [{"models": [...]}] whose entries are dicts with a string, [None] or no
    [name], [_fetch_local_models] returns exactly the non-empty names. *)
Theorem fetch_returns_listed_names
  (UPSTREAM_BASE : string) (upstream : list HttpCall -> HttpCall -> Outcome)
  (json_loads : bytes -> option json) (w : World) (r : HttpResponse)
  (d : gmap string json) (entries : list (gmap string json)) :
  upstream (sent w) (tags_call UPSTREAM_BASE) = Replied r ->
  is_success r = true ->
  json_loads (resp_content r) = Some (JObj d) ->
  d !! "models" = Some (JArr (JObj <$> entries)) ->
  Forall plain_entry entries ->
  exists names,
    fst (_fetch_local_models UPSTREAM_BASE upstream json_loads w) = Ok names
    /\ forall s, s ∈ names <->
         s <> "" /\ exists e, e ∈ entries /\ e !! "name" = Some (JStr s).
Proof.
  intros Hu Hs Hl Hd He.
  destruct (collect_names_plain entries ∅ He) as (names & Hc & Hn).
  exists names. split.
  - unfold _fetch_local_models, client_request, raise_for_status, resp_json.
    run_monad. rewrite Hu, Hs, Hl. cbn [py_get]. rewrite Hd.
    cbn [default from_option id py_iter]. by rewrite Hc.
  - intros s. rewrite Hn. split; [|by right].
    intros [H|H]; [|done]. by apply not_elem_of_empty in H.
Qed.

Lemma fetch_returns_listed_names_witness :
  exists names,
    fst (_fetch_local_models Sample.base (Sample.backend 200 Sample.tags_text)
           Sample.loads Sample.start) = Ok names
    /\ forall s, s ∈ names <->
         s <> ""
         /\ exists e : gmap string json,
              e ∈ [ (<["name" := JStr "qwen3:8b"]> ∅ : gmap string json) ]
              /\ e !! "name" = Some (JStr s).
Proof.
  apply (fetch_returns_listed_names Sample.base
           (Sample.backend 200 Sample.tags_text) Sample.loads Sample.start
           _ _ [ (<["name" := JStr "qwen3:8b"]> ∅ : gmap string json) ]
           eq_refl eq_refl
           eq_refl eq_refl).
  constructor; [|constructor]. right. right. by exists "qwen3:8b".
Defined.

(** X9. How the listing ends otherwise.  An unreachable backend raises the
    transport error; a status outside 2xx raises the status error whatever
    the body; a body that does not decode raises the decode error; a body
    that is a dict without [models] gives the empty set; a [models] list
    holding anything but dicts raises [AttributeError].  In every case, as
    in success, one call has been sent and the cache is untouched. *)
Theorem fetch_edges
  (UPSTREAM_BASE : string) (upstream : list HttpCall -> HttpCall -> Outcome)
  (json_loads : bytes -> option json) (w : World) :
  let fetch := _fetch_local_models UPSTREAM_BASE upstream json_loads in
  let answer := upstream (sent w) (tags_call UPSTREAM_BASE) in
  snd (fetch w) = logged (tags_call UPSTREAM_BASE) w
  /\ (answer = Unreachable -> fst (fetch w) = Raise TransportError)
  /\ (forall r, answer = Replied r -> is_success r = false ->
      fst (fetch w) = Raise (HTTPStatusError (status_code r)))
  /\ (forall r, answer = Replied r -> is_success r = true ->
      json_loads (resp_content r) = None ->
      fst (fetch w) = Raise JSONDecodeError)
  /\ (forall r d, answer = Replied r -> is_success r = true ->
      json_loads (resp_content r) = Some (JObj d) ->
      d !! "models" = None ->
      fst (fetch w) = Ok ∅)
  /\ (forall r d v rest, answer = Replied r -> is_success r = true ->
      json_loads (resp_content r) = Some (JObj d) ->
      d !! "models" = Some (JArr (v :: rest)) ->
      (forall e, v <> JObj e) ->
      fst (fetch w) = Raise AttributeError).
Proof.
  cbv zeta. split; [apply fetch_world|].
  unfold _fetch_local_models, client_request, raise_for_status, resp_json.
  run_monad. repeat split.
  - by intros ->.
  - by intros r -> ->.
  - by intros r -> -> ->.
  - intros r d -> -> -> Hd. cbn [py_get]. by rewrite Hd.
  - intros r d v rest -> -> -> Hd Hv. cbn [py_get]. rewrite Hd.
    cbn [default from_option id py_iter collect_names].
    destruct v; try done. by destruct (Hv d0).
Qed.

Lemma fetch_edges_witness :
  fst (_fetch_local_models Sample.base Sample.backend_down Sample.loads
         Sample.start) = Raise TransportError
  /\ fst (_fetch_local_models Sample.base (Sample.backend 503 Sample.tags_text)
            Sample.loads Sample.start) = Raise (HTTPStatusError 503)
  /\ fst (_fetch_local_models Sample.base (Sample.backend 200 "{}")
            Sample.loads Sample.start) = Ok ∅.
Proof.
  split; [|split].
  - apply (proj1 (proj2 (fetch_edges Sample.base Sample.backend_down
                           Sample.loads Sample.start))). reflexivity.
  - apply (proj1 (proj2 (proj2 (fetch_edges Sample.base
                                  (Sample.backend 503 Sample.tags_text)
                                  Sample.loads Sample.start)))
             _ eq_refl eq_refl).
  - apply (proj1 (proj2 (proj2 (proj2 (proj2
             (fetch_edges Sample.base (Sample.backend 200 "{}")
                Sample.loads Sample.start)))))
             _ ∅ eq_refl eq_refl eq_refl eq_refl).
Defined.

(** ** The cache, again *)

Lemma float_sub_self_gt (x : spec_float) (n : Z) :
  float_gt_int (float_sub x x) n = true ->
  (n < 0)%Z /\ (exists s, x = S754_zero s) \/ (n < 0)%Z /\ exists s m e, x = S754_finite s m e.
Proof.
  destruct x as [s|s| |s m e]; unfold float_sub, SFsub.
  - destruct s; simpl; intros H%Z.ltb_lt; left; eauto.
  - by destruct s.
  - done.
  - rewrite Z.min_id. unfold shl_align. rewrite Z.sub_diag.
    simpl. intros H%Z.ltb_lt. right. eauto 6.
Qed.

Lemma float_sub_self_finite (s : bool) (m : positive) (e : Z) (n : Z) :
  float_gt_int (float_sub (S754_finite s m e) (S754_finite s m e)) n
  = (n <? 0)%Z.
Proof.
  unfold float_sub, SFsub. rewrite Z.min_id. unfold shl_align.
  by rewrite Z.sub_diag.
Qed.

Section CacheMore.

Variable UPSTREAM_BASE : string.
Variable MODELS_CACHE_TTL_SEC : Z.
Variable time_time : nat -> spec_float.
Variable upstream : list HttpCall -> HttpCall -> Outcome.
Variable json_loads : bytes -> option json.

Local Abbreviation fetch := (_fetch_local_models UPSTREAM_BASE upstream json_loads).
Local Abbreviation has_model :=
  (_has_model UPSTREAM_BASE MODELS_CACHE_TTL_SEC time_time upstream json_loads).
Local Abbreviation ensure_model auto :=
  (_ensure_model UPSTREAM_BASE auto MODELS_CACHE_TTL_SEC time_time upstream
     json_loads).
Local Abbreviation is_expired := (expired MODELS_CACHE_TTL_SEC).

(** X10. While the stamp has not expired, [_has_model] sends nothing,
    leaves the set and the stamp alone, and answers by membership in the
    cached set as it stands. *)
Theorem fresh_cache_answers_locally (model : string) (w : World) :
  is_expired (time_time (clock_reads w)) (_models_cache_ts w) = false ->
  let w' := snd (has_model model w) in
  fst (has_model model w) = Ok (bool_decide (model ∈ _models_cache w))
  /\ sent w' = sent w
  /\ _models_cache w' = _models_cache w
  /\ _models_cache_ts w' = _models_cache_ts w.
Proof. intros H. cbv zeta. by rewrite (has_model_fresh _ _ _ _ _ _ _ H). Qed.

(** X11. A refresh that succeeds replaces the set by the listed names and
    stamps it with the clock reading; the answer is membership in the new
    set, and a following check that finds this stamp unexpired answers from
    the same names without a call. *)
Theorem refresh_then_cached (model model' : string) (w : World)
  (names : gset string) :
  is_expired (time_time (clock_reads w)) (_models_cache_ts w) = true ->
  fst (fetch w) = Ok names ->
  let w1 := snd (has_model model w) in
  fst (has_model model w) = Ok (bool_decide (model ∈ names))
  /\ _models_cache w1 = names
  /\ _models_cache_ts w1 = time_time (clock_reads w)
  /\ sent_since w w1 = [tags_call UPSTREAM_BASE]
  /\ (is_expired (time_time (clock_reads w1)) (time_time (clock_reads w)) = false ->
      fst (has_model model' w1) = Ok (bool_decide (model' ∈ names))
      /\ sent (snd (has_model model' w1)) = sent w1).
Proof.
  intros H Hf. cbv zeta.
  rewrite (has_model_refresh_ok _ _ _ _ _ _ _ _ H Hf). cbn [fst snd].
  repeat split.
  - by apply sent_since_app.
  - by rewrite has_model_fresh.
  - by rewrite has_model_fresh.
Qed.

(** X12. A check whose clock reading equals the stamp: with a lifetime of
    zero or more it is never a refresh, whatever the float; with a negative
    lifetime and a finite reading it always is. *)
Theorem check_at_stamp_time (model : string) (w : World) :
  time_time (clock_reads w) = _models_cache_ts w ->
  ((0 <= MODELS_CACHE_TTL_SEC)%Z ->
   has_model model w
   = (Ok (bool_decide (model ∈ _models_cache w)), ticked w))
  /\ ((MODELS_CACHE_TTL_SEC < 0)%Z ->
      (exists s m e, _models_cache_ts w = S754_finite s m e) ->
      sent_since w (snd (has_model model w)) = [tags_call UPSTREAM_BASE]).
Proof.
  intros E. split.
  - intros Hn. apply has_model_fresh. rewrite E. unfold expired.
    destruct (float_gt_int _ _) eqn:Hg; [|done].
    apply float_sub_self_gt in Hg as [[? _]|[? _]]; lia.
  - intros Hn (s & m & e & Hts).
    assert (is_expired (time_time (clock_reads w)) (_models_cache_ts w) = true)
      as H.
    { rewrite E, Hts. unfold expired. rewrite float_sub_self_finite.
      by apply Z.ltb_lt. }
    apply sent_since_app.
    destruct (fst (fetch w)) as [names|e'] eqn:Hf.
    + by rewrite (has_model_refresh_ok _ _ _ _ _ _ _ _ H Hf).
    + by rewrite (has_model_refresh_fails _ _ _ _ _ _ _ _ H Hf).
Qed.

(** X13. Whatever the flag, the cache and the backend, [_ensure_model]
    sends nothing, or a listing, or a pull of the model, or a listing then
    a pull of the model: never two of a kind, never another call, never a
    pull before the listing. *)
Theorem ensure_model_calls (auto : bool) (model : string) (w : World) :
  let l := sent_since w (snd (ensure_model auto model w)) in
  l = [] \/ l = [tags_call UPSTREAM_BASE]
  \/ l = [pull_call UPSTREAM_BASE model]
  \/ l = [tags_call UPSTREAM_BASE; pull_call UPSTREAM_BASE model].
Proof.
  cbv zeta. destruct auto.
  - destruct (has_model model w) as [[[]|e] w1] eqn:Hh.
    + rewrite (ensure_model_present _ _ _ _ _ _ _ _ Hh). cbn [snd].
      destruct (has_model_sent UPSTREAM_BASE MODELS_CACHE_TTL_SEC time_time
                  upstream json_loads model w) as [E|E];
        rewrite Hh in E; cbn [snd] in E.
      * left. apply sent_since_app. by rewrite app_nil_r.
      * right. left. by apply sent_since_app.
    + rewrite (ensure_model_absent _ _ _ _ _ _ _ _ Hh).
      destruct (has_model_sent UPSTREAM_BASE MODELS_CACHE_TTL_SEC time_time
                  upstream json_loads model w) as [E|E];
        rewrite Hh in E; cbn [snd] in E.
      * right. right. left.
        rewrite (sent_since_app w _ [pull_call UPSTREAM_BASE model]); [done|].
        by rewrite pull_model_sent, E.
      * right. right. right.
        rewrite (sent_since_app w _
                   [tags_call UPSTREAM_BASE; pull_call UPSTREAM_BASE model]);
          [done|].
        rewrite pull_model_sent, E. by rewrite <- app_assoc.
    + assert (ensure_model true model w = (Raise e, w1)) as ->.
      { unfold _ensure_model. run_monad. simpl. by rewrite Hh. }
      cbn [snd].
      destruct (has_model_sent UPSTREAM_BASE MODELS_CACHE_TTL_SEC time_time
                  upstream json_loads model w) as [E|E];
        rewrite Hh in E; cbn [snd] in E.
      * left. apply sent_since_app. by rewrite app_nil_r.
      * right. left. by apply sent_since_app.
  - left. apply sent_since_app. by rewrite app_nil_r.
Qed.

End CacheMore.

Lemma fresh_cache_answers_locally_witness :
  let w := mkWorld {[ "qwen3:8b" ]} (Sample.clock 0) 1 [] in
  let run := _has_model Sample.base 10 Sample.clock Sample.backend_down
               Sample.loads "llama3" w in
  fst run = Ok false /\ sent (snd run) = [].
Proof.
  cbv zeta.
  pose proof (fresh_cache_answers_locally Sample.base 10 Sample.clock
                Sample.backend_down Sample.loads "llama3"
                (mkWorld {[ "qwen3:8b" ]} (Sample.clock 0) 1 []) eq_refl) as H.
  cbv zeta in H. destruct H as (H1 & H2 & _). split; [exact H1 | exact H2].
Defined.

Lemma refresh_then_cached_witness :
  let run := _has_model Sample.base 10 Sample.clock
               (Sample.backend 200 Sample.tags_text) Sample.loads in
  fst (run "qwen3:8b" Sample.start) = Ok true
  /\ fst (run "llama3" (snd (run "qwen3:8b" Sample.start))) = Ok false
  /\ sent (snd (run "llama3" (snd (run "qwen3:8b" Sample.start))))
     = [tags_call Sample.base].
Proof.
  cbv zeta.
  pose proof (refresh_then_cached Sample.base 10 Sample.clock
                (Sample.backend 200 Sample.tags_text) Sample.loads
                "qwen3:8b" "llama3" Sample.start _ eq_refl eq_refl) as H.
  cbv zeta in H. destruct H as (H1 & _ & _ & _ & H2).
  destruct (H2 eq_refl) as [H3 H4].
  split; [exact H1|]. split; [exact H3|]. rewrite H4. reflexivity.
Defined.

Lemma check_at_stamp_time_witness :
  let w := mkWorld {[ "qwen3:8b" ]} (Sample.clock 0) 1 [] in
  _has_model Sample.base 0 Sample.clock Sample.backend_down Sample.loads
    "qwen3:8b" w
  = (Ok true, ticked w)
  /\ sent_since w
       (snd (_has_model Sample.base (-1) Sample.clock Sample.backend_down
               Sample.loads "qwen3:8b" w))
     = [tags_call Sample.base].
Proof.
  cbv zeta. split.
  - rewrite (proj1 (check_at_stamp_time Sample.base 0 Sample.clock
                      Sample.backend_down Sample.loads "qwen3:8b"
                      (mkWorld {[ "qwen3:8b" ]} (Sample.clock 0) 1 []) eq_refl))
      by done.
    reflexivity.
  - apply (proj2 (check_at_stamp_time Sample.base (-1) Sample.clock
                    Sample.backend_down Sample.loads "qwen3:8b"
                    (mkWorld {[ "qwen3:8b" ]} (Sample.clock 0) 1 []) eq_refl)).
    + done.
    + by eexists _, _, _.
Defined.

(** ** The route handlers, again *)

Section ProxyMore.

Variable UPSTREAM_BASE : string.
Variable DEFAULT_MODEL : string.
Variable AUTO_PULL : bool.
Variable MODELS_CACHE_TTL_SEC : Z.
Variable time_time : nat -> spec_float.
Variable upstream : list HttpCall -> HttpCall -> Outcome.
Variable json_loads : bytes -> option json.

Local Abbreviation has_model :=
  (_has_model UPSTREAM_BASE MODELS_CACHE_TTL_SEC time_time upstream json_loads).
Local Abbreviation ensure_model auto :=
  (_ensure_model UPSTREAM_BASE auto MODELS_CACHE_TTL_SEC time_time upstream
     json_loads).
Local Abbreviation proxy auto :=
  (proxy_v1 UPSTREAM_BASE DEFAULT_MODEL auto MODELS_CACHE_TTL_SEC
     time_time upstream json_loads).
Local Abbreviation outbound := (outbound_call UPSTREAM_BASE json_loads).
Local Abbreviation pick := (_pick_model DEFAULT_MODEL).

(** X14. With auto-pull on and the selected model reported absent,
    [proxy_v1] pulls that very model, and once the pull is accepted it
    forwards the rewritten request: the pull comes first and nothing comes
    between or after. *)
Theorem proxy_pulls_then_forwards (path : string) (request : Request)
  (w w1 : World) (r : HttpResponse) :
  has_model (pick request) w = (Ok false, w1) ->
  upstream (sent w1) (pull_call UPSTREAM_BASE (pick request)) = Replied r ->
  is_success r = true ->
  sent (snd (proxy true path request w))
  = (sent w1 ++ [pull_call UPSTREAM_BASE (pick request);
                 outbound path request (pick request)])%list.
Proof.
  intros Hh Hu Hs.
  rewrite (proxy_v1_forwards UPSTREAM_BASE DEFAULT_MODEL true
             MODELS_CACHE_TTL_SEC time_time upstream json_loads path request w
             (mkWorld (_models_cache w1) float_zero (clock_reads w1)
                (sent w1 ++ [pull_call UPSTREAM_BASE (pick request)]))).
  - cbn [sent]. by rewrite <- app_assoc.
  - rewrite (ensure_model_absent _ _ _ _ _ _ _ _ Hh).
    by apply pull_model_succeeds with r.
Qed.

(** X15. [proxy_v1] does not judge the backend's answer: once the model is
    ensured, a reply of any status comes back with that status; only an
    unreachable backend raises.  When ensuring the model raises, the
    request is not forwarded at all. *)
Theorem proxy_passes_status_through (path : string) (request : Request)
  (w : World) :
  (forall w1 r,
     ensure_model AUTO_PULL (pick request) w = (Ok tt, w1) ->
     upstream (sent w1) (outbound path request (pick request)) = Replied r ->
     exists c, fst (proxy AUTO_PULL path request w) = Ok c
               /\ client_status c = status_code r)
  /\ (forall w1,
     ensure_model AUTO_PULL (pick request) w = (Ok tt, w1) ->
     upstream (sent w1) (outbound path request (pick request)) = Unreachable ->
     fst (proxy AUTO_PULL path request w) = Raise TransportError)
  /\ (forall w1 e,
     ensure_model AUTO_PULL (pick request) w = (Raise e, w1) ->
     proxy AUTO_PULL path request w = (Raise e, w1)).
Proof.
  repeat split.
  - intros w1 r He Hu. exists (relay r). split.
    + by eapply proxy_v1_relays.
    + unfold relay. by destruct (PyStr.contains _ _).
  - intros w1 He Hu. unfold proxy_v1, client_request. run_monad.
    by rewrite He, Hu.
  - intros w1 e He. by apply proxy_v1_ensure_fails.
Qed.

End ProxyMore.

Lemma proxy_pulls_then_forwards_witness :
  sent (snd (proxy_v1 Sample.base "qwen3:8b" true 10 Sample.clock
               (Sample.backend 200 Sample.tags_text) Sample.loads
               "chat/completions" Sample.post_with_query Sample.start))
  = [tags_call Sample.base; pull_call Sample.base "b";
     outbound_call Sample.base Sample.loads "chat/completions"
       Sample.post_with_query "b"].
Proof.
  rewrite (proxy_pulls_then_forwards Sample.base "qwen3:8b" 10 Sample.clock
             (Sample.backend 200 Sample.tags_text) Sample.loads
             "chat/completions" Sample.post_with_query Sample.start
             (snd (_has_model Sample.base 10 Sample.clock
                     (Sample.backend 200 Sample.tags_text) Sample.loads
                     "b" Sample.start))
             (mkResponse 200 ∅ [Sample.text Sample.tags_text])).
  - reflexivity.
  - reflexivity.
  - reflexivity.
  - reflexivity.
Defined.

Lemma proxy_passes_status_through_witness :
  exists c,
    fst (proxy_v1 Sample.base "qwen3:8b" false 10 Sample.clock
           (Sample.backend 500 "") Sample.loads
           "chat/completions" Sample.post_plain Sample.start) = Ok c
    /\ client_status c = 500%Z.
Proof.
  apply (proj1 (proxy_passes_status_through Sample.base "qwen3:8b" false 10
                  Sample.clock (Sample.backend 500 "") Sample.loads
                  "chat/completions" Sample.post_plain Sample.start)
           Sample.start (mkResponse 500 ∅ [Sample.text ""]));
    reflexivity.
Defined.



(** X17. The listing handler sends its one call and never touches the
    cache or the clock, however it ends.  An unreachable backend raises;
    a 200 whose body does not decode raises too, and is not answered with
    the fallback list. *)
Theorem models_handler_edges
  (UPSTREAM_BASE DEFAULT_MODEL : string)
  (upstream : list HttpCall -> HttpCall -> Outcome)
  (json_loads : bytes -> option json) (w : World) :
  let run := models UPSTREAM_BASE DEFAULT_MODEL upstream json_loads w in
  let answer := upstream (sent w) (models_call UPSTREAM_BASE) in
  snd run = logged (models_call UPSTREAM_BASE) w
  /\ (answer = Unreachable -> fst run = Raise TransportError)
  /\ (forall r, answer = Replied r -> status_code r = 200%Z ->
      json_loads (resp_content r) = None -> fst run = Raise JSONDecodeError).
Proof.
  cbv zeta. unfold models, client_request, resp_json. run_monad.
  repeat split.
  - destruct (upstream _ _) as [r|]; [|done].
    destruct (status_code r =? 200)%Z; [|done].
    by destruct (json_loads _).
  - by intros ->.
  - intros r -> Hs Hl. apply Z.eqb_eq in Hs. by rewrite Hs, Hl.
Qed.

Lemma models_handler_edges_witness :
  fst (models Sample.base "qwen3:8b" Sample.backend_down Sample.loads
         Sample.start) = Raise TransportError
  /\ fst (models Sample.base "qwen3:8b" (Sample.backend 200 "<html>")
            Sample.loads Sample.start) = Raise JSONDecodeError.
Proof.
  split.
  - apply (proj1 (proj2 (models_handler_edges Sample.base "qwen3:8b"
                           Sample.backend_down Sample.loads Sample.start))).
    reflexivity.
  - apply (proj2 (proj2 (models_handler_edges Sample.base "qwen3:8b"
                           (Sample.backend 200 "<html>") Sample.loads
                           Sample.start))
             _ eq_refl eq_refl eq_refl).
Defined.

(** ** Start-up configuration *)

Module PyEnvFacts.
Import PyStr PyStrFacts PyStrMore PyEnv.

Lemma rstrip_chars_decompose chars s :
  exists r, s = rstrip_chars chars s ++ r /\ all_in chars r = true.
Proof.
  induction s as [|c t [r [E Hr]]]; cbn [rstrip_chars].
  - by exists "".
  - destruct (rstrip_chars chars t) as [|d u] eqn:Ht.
    + rewrite app_empty in E. subst t. destruct (char_in c chars) eqn:Hc.
      * exists (String c r). cbn [all_in]. by rewrite Hc, Hr.
      * by exists r.
    + exists r. split; [|done]. rewrite !app_String. f_equal. exact E.
Qed.

Lemma rstrip_chars_last chars s t c :
  rstrip_chars chars s = t ++ String c "" -> char_in c chars = false.
Proof.
  revert t. induction s as [|d r IH]; intros t; cbn [rstrip_chars].
  - by destruct t.
  - destruct (rstrip_chars chars r) as [|e u] eqn:Hr.
    + destruct (char_in d chars) eqn:Hd; [by destruct t|].
      destruct t as [|x [|y t]]; rewrite ?app_String, ?app_empty;
        intros H; by simplify_eq.
    + destruct t as [|x t]; rewrite ?app_String, ?app_empty;
        intros H; simplify_eq. by eapply IH.
Qed.

Lemma lstrip_app_space l t : all_space l = true -> lstrip (l ++ t) = lstrip t.
Proof.
  induction l as [|c l IH]; [done|]. cbn [all_space].
  intros [Hc Hl]%andb_prop. rewrite app_String. cbn [lstrip]. rewrite Hc. auto.
Qed.

Lemma rstrip_all_space r : all_space r = true -> rstrip r = "".
Proof.
  induction r as [|c r IH]; [done|]. cbn [all_space rstrip].
  intros [Hc Hr]%andb_prop. by rewrite (IH Hr), Hc.
Qed.

Lemma rstrip_app_space t r : all_space r = true -> rstrip (t ++ r) = rstrip t.
Proof.
  intros Hr. induction t as [|c t IH].
  - rewrite app_empty. by apply rstrip_all_space.
  - rewrite app_String. cbn [rstrip]. by rewrite IH.
Qed.

(** Whitespace around a value does not survive [strip]. *)
Lemma strip_pad l s r :
  all_space l = true -> all_space r = true -> strip (l ++ s ++ r) = strip s.
Proof.
  intros Hl Hr. unfold strip. rewrite (lstrip_app_space _ _ Hl).
  induction s as [|c s IH].
  - rewrite app_empty. by rewrite (lstrip_all_space _ Hr).
  - rewrite app_String. cbn [lstrip]. destruct (isspace c); [done|].
    rewrite <- app_String. by apply rstrip_app_space.
Qed.

Lemma isspace_lower_char c : isspace (lower_char c) = isspace c.
Proof. by destruct c as [[] [] [] [] [] [] [] []]. Qed.

Lemma lower_char_idem c : lower_char (lower_char c) = lower_char c.
Proof. by destruct c as [[] [] [] [] [] [] [] []]. Qed.

Lemma lower_idem s : lower (lower s) = lower s.
Proof.
  induction s as [|c s IH]; [done|]. cbn [lower].
  by rewrite lower_char_idem, IH.
Qed.

Lemma lstrip_lower s : lstrip (lower s) = lower (lstrip s).
Proof.
  induction s as [|c s IH]; [done|]. cbn [lower lstrip].
  rewrite isspace_lower_char. by destruct (isspace c).
Qed.

Lemma rstrip_lower s : rstrip (lower s) = lower (rstrip s).
Proof.
  induction s as [|c s IH]; [done|]. cbn [lower rstrip]. rewrite IH.
  destruct (rstrip s); cbn [lower]; [|done].
  rewrite isspace_lower_char. by destruct (isspace c).
Qed.

Lemma strip_lower s : strip (lower s) = lower (strip s).
Proof. unfold strip. by rewrite lstrip_lower, rstrip_lower. Qed.

End PyEnvFacts.

(** X18. The backend base has lost every trailing slash of the configured
    value and nothing else: the value is the base followed by slashes only,
    and the base does not end in a slash.  Unset, it is
    [http://ollama:11434]. *)
Theorem upstream_base_no_trailing_slash (env : gmap string string) :
  (exists tail,
     PyEnv.getenv env "UPSTREAM_BASE" "http://ollama:11434"
     = PyEnv.upstream_base env ++ tail
     /\ PyEnv.all_in "/" tail = true)
  /\ (forall t, PyEnv.upstream_base env <> t ++ "/")
  /\ (env !! "UPSTREAM_BASE" = None ->
      PyEnv.upstream_base env = "http://ollama:11434").
Proof.
  unfold PyEnv.upstream_base. repeat split.
  - apply PyEnvFacts.rstrip_chars_decompose.
  - intros t H. by apply PyEnvFacts.rstrip_chars_last in H.
  - unfold PyEnv.getenv. by intros ->.
Qed.

Lemma upstream_base_no_trailing_slash_witness :
  PyEnv.upstream_base ∅ = "http://ollama:11434".
Proof.
  apply (proj2 (proj2 (upstream_base_no_trailing_slash ∅))). reflexivity.
Defined.

(** X19. Auto-pull is off when [AUTO_PULL] is unset.  When set, whitespace
    around the value and the case of its letters do not matter. *)
Theorem auto_pull_reading (env : gmap string string) :
  (env !! "AUTO_PULL" = None -> PyEnv.auto_pull env = false)
  /\ (forall l v r,
      PyStr.all_space l = true -> PyStr.all_space r = true ->
      PyEnv.auto_pull (<["AUTO_PULL" := l ++ v ++ r]> env)
      = PyEnv.auto_pull (<["AUTO_PULL" := v]> env))
  /\ (forall v,
      PyEnv.auto_pull (<["AUTO_PULL" := PyStr.lower v]> env)
      = PyEnv.auto_pull (<["AUTO_PULL" := v]> env)).
Proof.
  unfold PyEnv.auto_pull, PyEnv.getenv. cbv zeta. repeat split.
  - by intros ->.
  - intros l v r Hl Hr. rewrite !lookup_insert_eq. cbn [default from_option id].
    by rewrite PyEnvFacts.strip_pad.
  - intros v. rewrite !lookup_insert_eq. cbn [default from_option id].
    by rewrite PyEnvFacts.strip_lower, PyEnvFacts.lower_idem.
Qed.

Lemma auto_pull_reading_witness :
  PyEnv.auto_pull ∅ = false
  /\ PyEnv.auto_pull (<["AUTO_PULL" := " True  "]> ∅) = true.
Proof.
  split.
  - apply (proj1 (auto_pull_reading ∅)). reflexivity.
  - rewrite (proj1 (proj2 (auto_pull_reading ∅)) " " "True" "  ")
      by reflexivity.
    reflexivity.
Defined.

(** X20. A [model] query parameter that normalises to nothing (empty,
    blank, or starting with a slash) still forces: the decoded dict goes
    out with its [model] replaced by the default model, whatever the client
    had put there. *)
Theorem blank_override_forces_default
  (UPSTREAM_BASE DEFAULT_MODEL : string) (json_loads : bytes -> option json)
  (path : string) (request : Request) (q : string) (d : gmap string json) :
  claims_json request ->
  json_loads (body request) = Some (JObj d) ->
  query_params request !! "model" = Some q ->
  _normalize_model q = "" ->
  wire_body (outbound_call UPSTREAM_BASE json_loads path request
               (_pick_model DEFAULT_MODEL request))
  = JsonValue (JObj (<["model" := JStr DEFAULT_MODEL]> d)).
Proof.
  intros Hg Hl Hq Hn. rewrite (outbound_object _ _ _ _ _ _ Hg Hl).
  rewrite bool_decide_eq_true_2 by (by rewrite Hq). cbn [_apply_model].
  unfold _pick_model. rewrite Hq. cbv zeta.
  destruct (PyStr.truthy q); [by rewrite Hn|done].
Qed.

Lemma blank_override_forces_default_witness :
  let request :=
    mkRequest "POST" Sample.json_headers [("model", " /chat")]
      (Sample.text Sample.model_a_text) in
  wire_body (outbound_call Sample.base Sample.loads "chat/completions" request
               (_pick_model "qwen3:8b" request))
  = JsonValue (JObj (<["model" := JStr "qwen3:8b"]>
                       (<["model" := JStr "a"]> ∅))).
Proof.
  cbv zeta.
  apply (blank_override_forces_default Sample.base "qwen3:8b" Sample.loads
           "chat/completions" _ " /chat").
  - split; [reflexivity | discriminate].
  - reflexivity.
  - reflexivity.
  - reflexivity.
Defined.
